(** * flytekit.core.data_persistence: pluggable storage back-ends

    A shallow embedding of [flytekit/core/data_persistence.py]: the plugin
    registry [DataPersistencePlugins], the local back-end [DiskPersistence]
    and the client [FileAccessProvider], followed by the properties that the
    design document states about them.

    Python [str] values are modelled by [string]; a [dict] by an association
    list kept in insertion order; an exception by a value of [PyExc]; code
    that touches the file system by a state-and-exception monad over a small
    model of a POSIX directory tree. *)

From Stdlib Require Import String Ascii List Bool Arith NArith Lia.
Import ListNotations.
Set Warnings "-register-all".
Open Scope list_scope.
Open Scope string_scope.

(** ** Python strings *)

Module PyStr.

(** [s.startswith(k)] *)
Fixpoint startswith (s k : string) {struct k} : bool :=
  match k with
  | EmptyString => true
  | String c k' =>
      match s with
      | EmptyString => false
      | String d s' => Ascii.eqb d c && startswith s' k'
      end
  end.

(** [s.endswith(k)] for a one-character [k] *)
Fixpoint endswith_char (s : string) (c : ascii) : bool :=
  match s with
  | EmptyString => false
  | String d EmptyString => Ascii.eqb d c
  | String _ s' => endswith_char s' c
  end.

(** [s[n:]] *)
Fixpoint drop (n : nat) (s : string) : string :=
  match n, s with
  | O, _ => s
  | S n', EmptyString => EmptyString
  | S n', String _ s' => drop n' s'
  end.

(** [s.replace(old, new, 1)]: the leftmost occurrence of [old] is replaced.
    An empty [old] matches at position 0. *)
Fixpoint replace_first (s old new : string) : string :=
  if startswith s old then new ++ drop (String.length old) s
  else match s with
       | EmptyString => EmptyString
       | String c s' => String c (replace_first s' old new)
       end.

(** [str(b)] for a [bool] *)
Definition str_of_bool (b : bool) : string := if b then "True" else "False".

(** [x in s] for strings: [x] occurs in [s] *)
Definition occurs_in (x s : string) : Prop :=
  exists pre post, s = pre ++ x ++ post.

(** [s.split(sep)] for a one-character separator *)
Fixpoint split_on (sep : ascii) (s : string) : list string :=
  match s with
  | EmptyString => [EmptyString]
  | String c s' =>
      if Ascii.eqb c sep then EmptyString :: split_on sep s'
      else match split_on sep s' with
           | [] => [String c EmptyString]
           | w :: ws => String c w :: ws
           end
  end.

(** ['%032x' % n]: thirty-two lower-case hexadecimal digits, most
    significant first (the value is below [2^128]). *)
Definition hex_digit (d : N) : ascii :=
  match d with
  | 0%N => "0" | 1%N => "1" | 2%N => "2" | 3%N => "3"
  | 4%N => "4" | 5%N => "5" | 6%N => "6" | 7%N => "7"
  | 8%N => "8" | 9%N => "9" | 10%N => "a" | 11%N => "b"
  | 12%N => "c" | 13%N => "d" | 14%N => "e" | _ => "f"
  end%char.

Fixpoint hex_fixed (width : nat) (n : N) : string :=
  match width with
  | O => EmptyString
  | S w => String (hex_digit ((n / 16 ^ N.of_nat w) mod 16)%N) (hex_fixed w n)
  end.

Fixpoint forallb_string (p : ascii -> bool) (s : string) : bool :=
  match s with
  | EmptyString => true
  | String c s' => p c && forallb_string p s'
  end.

End PyStr.
Import PyStr.

(** ** Exceptions and the state-and-exception monad *)

(** A raised exception: its class name and [str(ex)]; [ExcFrom] is an
    exception raised [from cause] (its [__cause__]), [ExcDuring] one raised
    inside an [except] block that was handling [context] (its
    [__context__]). Only instances of [Exception] are modelled. *)
Inductive PyExc : Type :=
| Exc (cls msg : string)
| ExcFrom (cls msg : string) (cause : PyExc)
| ExcDuring (cls msg : string) (context : PyExc).

Definition exc_class (e : PyExc) : string :=
  match e with Exc c _ | ExcFrom c _ _ | ExcDuring c _ _ => c end.
Definition exc_str (e : PyExc) : string :=
  match e with Exc _ m | ExcFrom _ m _ | ExcDuring _ m _ => m end.
Definition exc_cause (e : PyExc) : option PyExc :=
  match e with ExcFrom _ _ c => Some c | _ => None end.
Definition exc_context (e : PyExc) : option PyExc :=
  match e with ExcFrom _ _ c | ExcDuring _ _ c => Some c | Exc _ _ => None end.

Inductive result (A : Type) : Type :=
| Ok (a : A)
| Raise (e : PyExc).
Arguments Ok {A} a.
Arguments Raise {A} e.

(** A computation over a mutable store [S] that returns or raises; the store
    keeps whatever was done before the exception. *)
Definition M (S A : Type) : Type := S -> result A * S.

Definition ret {S A} (a : A) : M S A := fun s => (Ok a, s).
Definition raise {S A} (e : PyExc) : M S A := fun s => (Raise e, s).
Definition bind {S A B} (m : M S A) (k : A -> M S B) : M S B :=
  fun s => match m s with
           | (Ok a, s') => k a s'
           | (Raise e, s') => (Raise e, s')
           end.
(** [try: m  except Exception as ex: h ex] *)
Definition try_except {S A} (m : M S A) (h : PyExc -> M S A) : M S A :=
  fun s => match m s with
           | (Ok a, s') => (Ok a, s')
           | (Raise e, s') => h e s'
           end.
Definition gets {S A} (f : S -> A) : M S A := fun s => (Ok (f s), s).
Definition modify {S} (f : S -> S) : M S unit := fun s => (Ok tt, f s).

Declare Scope py_scope.
Delimit Scope py_scope with py.
Notation "x <- m ;; k" := (bind m (fun x => k))
  (at level 61, m at next level, right associativity) : py_scope.
Notation "m ;;; k" := (bind m (fun _ => k))
  (at level 61, right associativity) : py_scope.
Open Scope py_scope.

(** [for x in xs: body x] *)
Fixpoint for_each {S A} (xs : list A) (body : A -> M S unit) : M S unit :=
  match xs with
  | [] => ret tt
  | x :: xs' => body x ;;; for_each xs' body
  end.

(** ** [posixpath] *)

Module PosixPath.

Definition sep : ascii := "/"%char.

(** One step of [os.path.join]. *)
Definition join2 (path b : string) : string :=
  if startswith b "/" then b
  else if (path =? "") || endswith_char path sep then path ++ b
  else path ++ "/" ++ b.

(** [os.path.join(a, *p)] *)
Definition join (a : string) (p : list string) : string := fold_left join2 p a.

(** [s.rstrip('/')] *)
Fixpoint rstrip_sep (s : string) : string :=
  match s with
  | EmptyString => EmptyString
  | String c s' =>
      let r := rstrip_sep s' in
      if (r =? "") && Ascii.eqb c sep then EmptyString else String c r
  end.

(** [os.path.split(p)]: [tail] is what follows the last slash, [head] what
    precedes it, without its trailing slashes unless it is all slashes. *)
Definition split (p : string) : string * string :=
  let tail := last (split_on sep p) "" in
  let head := substring 0 (String.length p - String.length tail) p in
  let head := if forallb_string (Ascii.eqb sep) head then head
              else rstrip_sep head in
  (head, tail).

Definition dirname (p : string) : string := fst (split p).
Definition basename (p : string) : string := snd (split p).

End PosixPath.

(** ** A model of the local file system *)

Module FS.

(** A directory tree. Entry names of a real file system are non-empty, contain
    no slash and are neither [.] nor [..]. *)
Inductive node : Type :=
| File (data : string)
| Dir (entries : list (string * node)).

(** The calls of the modelled program into [os], [shutil], [pathlib] and
    [distutils] that may change the disk, in the order they were made. *)
Inductive fs_call : Type :=
| Call_makedirs (path : string)
| Call_mkdir_parents (path : string)
| Call_copyfile (src dst : string)
| Call_copy_tree (src dst : string).

Record Disk : Type := mkDisk {
  root : node;
  cwd : list string;
  journal : list fs_call
}.

Inductive errno : Type := ENOENT | ENOTDIR | EEXIST | EISDIR.

Fixpoint lookup_entry (name : string) (es : list (string * node)) : option node :=
  match es with
  | [] => None
  | (k, n) :: es' => if k =? name then Some n else lookup_entry name es'
  end.

Fixpoint set_entry (name : string) (n : node) (es : list (string * node))
  : list (string * node) :=
  match es with
  | [] => [(name, n)]
  | (k, m) :: es' =>
      if k =? name then (k, n) :: es' else (k, m) :: set_entry name n es'
  end.

Fixpoint remove_entry (name : string) (es : list (string * node))
  : list (string * node) :=
  match es with
  | [] => []
  | (k, m) :: es' =>
      if k =? name then es' else (k, m) :: remove_entry name es'
  end.

(** The node reached from [n] along the entry names [cs]. *)
Fixpoint get (n : node) (cs : list string) : option node :=
  match cs with
  | [] => Some n
  | c :: cs' =>
      match n with
      | Dir es =>
          match lookup_entry c es with
          | Some m => get m cs'
          | None => None
          end
      | File _ => None
      end
  end.

(** Apply [f] to the entries of the directory reached along [cs]. *)
Fixpoint update_dir (n : node) (cs : list string)
    (f : list (string * node) -> list (string * node)) : option node :=
  match n with
  | File _ => None
  | Dir es =>
      match cs with
      | [] => Some (Dir (f es))
      | c :: cs' =>
          match lookup_entry c es with
          | Some m =>
              match update_dir m cs' f with
              | Some m' => Some (Dir (set_entry c m' es))
              | None => None
              end
          | None => None
          end
      end
  end.

(** Path resolution: one component at a time from the directory whose
    canonical location is [acc]. *)
Definition resolve_step (r : node) (acc : list string) (c : string)
  : errno + list string :=
  match get r acc with
  | Some (Dir es) =>
      if (c =? "") || (c =? ".") then inr acc
      else if c =? ".." then inr (removelast acc)
      else match lookup_entry c es with
           | Some _ => inr (acc ++ [c])%list
           | None => inl ENOENT
           end
  | Some (File _) => inl ENOTDIR
  | None => inl ENOENT
  end.

Fixpoint resolve_from (r : node) (acc : list string) (cs : list string)
  : errno + list string :=
  match cs with
  | [] => inr acc
  | c :: cs' =>
      match resolve_step r acc c with
      | inr acc' => resolve_from r acc' cs'
      | inl e => inl e
      end
  end.

Definition start_dir (d : Disk) (p : string) : list string :=
  if startswith p "/" then [] else cwd d.

(** The canonical location of the existing object that [p] names. *)
Definition namei (d : Disk) (p : string) : errno + list string :=
  if p =? "" then inl ENOENT
  else resolve_from (root d) (start_dir d p) (split_on PosixPath.sep p).

(** The object that [p] names. *)
Definition stat (d : Disk) (p : string) : errno + node :=
  match namei d p with
  | inr cs => match get (root d) cs with
              | Some n => inr n
              | None => inl ENOENT
              end
  | inl e => inl e
  end.

(** The canonical location of the parent directory of [p] and the last
    component of [p], for calls that create [p]. *)
Definition namei_parent (d : Disk) (p : string) : errno + (list string * string) :=
  if p =? "" then inl ENOENT
  else
    let cs := split_on PosixPath.sep p in
    match resolve_from (root d) (start_dir d p) (removelast cs) with
    | inr par =>
        match get (root d) par with
        | Some (Dir _) => inr (par, last cs "")
        | Some (File _) => inl ENOTDIR
        | None => inl ENOENT
        end
    | inl e => inl e
    end.

End FS.
Import FS.

(** ** The library calls of the program: [os], [shutil], [distutils] *)

Module Lib.

Definition oserror (e : errno) (path : string) : PyExc :=
  let quoted := ": '" ++ path ++ "'" in
  match e with
  | ENOENT => Exc "FileNotFoundError" ("[Errno 2] No such file or directory" ++ quoted)
  | ENOTDIR => Exc "NotADirectoryError" ("[Errno 20] Not a directory" ++ quoted)
  | EEXIST => Exc "FileExistsError" ("[Errno 17] File exists" ++ quoted)
  | EISDIR => Exc "IsADirectoryError" ("[Errno 21] Is a directory" ++ quoted)
  end.

Definition log (c : fs_call) : M Disk unit :=
  modify (fun d => mkDisk (root d) (cwd d) (journal d ++ [c])%list).

Definition set_root (r : node) : M Disk unit :=
  modify (fun d => mkDisk r (cwd d) (journal d)).

(** [os.path.exists(path)] *)
Definition os_path_exists (path : string) : M Disk bool :=
  gets (fun d => match stat d path with inr _ => true | inl _ => false end).

(** [os.path.isdir(path)] *)
Definition os_path_isdir (path : string) : M Disk bool :=
  gets (fun d => match stat d path with inr (Dir _) => true | _ => false end).

(** [os.path.isfile(path)] *)
Definition os_path_isfile (path : string) : M Disk bool :=
  gets (fun d => match stat d path with inr (File _) => true | _ => false end).

(** [os.listdir(path)]: the entry names of a directory, in directory order. *)
Definition os_listdir (path : string) : M Disk (list string) :=
  fun d => match stat d path with
           | inr (Dir es) => (Ok (map fst es), d)
           | inr (File _) => (Raise (oserror ENOTDIR path), d)
           | inl e => (Raise (oserror e path), d)
           end.

Definition is_dir_entry (e : string * node) : bool :=
  match snd e with Dir _ => true | File _ => false end.

(** [os.walk(top)], top-down: the triple of [top] first, then the walk of
    every sub-directory [os.path.join(top, name)]. The model has no symbolic
    links, and descends into the child itself. *)
Fixpoint walk_node (top : string) (n : node) {struct n}
  : list (string * list string * list string) :=
  match n with
  | File _ => []
  | Dir es =>
      (top, map fst (filter is_dir_entry es),
            map fst (filter (fun e => negb (is_dir_entry e)) es))
      :: (fix sub (l : list (string * node)) :=
            match l with
            | [] => []
            | e :: l' =>
                (walk_node (PosixPath.join2 top (fst e)) (snd e) ++ sub l')%list
            end) es
  end.

(** [list(os.walk(top))]; errors of the scan are ignored ([onerror=None]). *)
Definition os_walk (top : string) : M Disk (list (string * list string * list string)) :=
  gets (fun d => match stat d top with
                 | inr n => walk_node top n
                 | inl _ => []
                 end).

(** Creates the missing directories along [cs], from the directory at [acc].
    Returns the tree with what could be created and either the error that
    stopped it or whether the last component was created by this call. *)
Fixpoint mkdirs_from (r : node) (acc : list string) (cs : list string)
    (made : bool) : node * (errno + bool) :=
  match cs with
  | [] => (r, inr made)
  | c :: cs' =>
      match get r acc with
      | Some (Dir es) =>
          if (c =? "") || (c =? ".") then mkdirs_from r acc cs' made
          else if c =? ".." then mkdirs_from r (removelast acc) cs' false
          else match lookup_entry c es with
               | Some _ => mkdirs_from r (acc ++ [c])%list cs' false
               | None =>
                   match update_dir r acc (set_entry c (Dir [])) with
                   | Some r' => mkdirs_from r' (acc ++ [c])%list cs' true
                   | None => (r, inl ENOENT)
                   end
               end
      | Some (File _) => (r, inl ENOTDIR)
      | None => (r, inl ENOENT)
      end
  end.

(** The common part of [os.makedirs(path, exist_ok=...)] and of
    [pathlib.Path(path).mkdir(parents=True, exist_ok=...)]. *)
Definition mkdir_p (path : string) (exist_ok : bool) : M Disk unit :=
  fun d =>
    if path =? "" then (Raise (oserror ENOENT path), d)
    else
      let '(r, res) := mkdirs_from (root d) (start_dir d path)
                         (split_on PosixPath.sep path) false in
      let d' := mkDisk r (cwd d) (journal d) in
      match res with
      | inl e => (Raise (oserror e path), d')
      | inr true => (Ok tt, d')
      | inr false =>
          match stat d' path with
          | inr (Dir _) =>
              if exist_ok then (Ok tt, d') else (Raise (oserror EEXIST path), d')
          | _ => (Raise (oserror EEXIST path), d')
          end
      end.

(** [os.makedirs(path)] *)
Definition os_makedirs (path : string) : M Disk unit :=
  log (Call_makedirs path) ;;; mkdir_p path false.

(** [pathlib.Path(path).mkdir(parents=True, exist_ok=True)] *)
Definition pathlib_mkdir_parents (path : string) : M Disk unit :=
  log (Call_mkdir_parents path) ;;; mkdir_p path true.

Definition is_dots (name : string) : bool :=
  (name =? "") || (name =? ".") || (name =? "..").

(** [open(path, 'rb').read()] *)
Definition read_file (path : string) : M Disk string :=
  fun d => match stat d path with
           | inr (File data) => (Ok data, d)
           | inr (Dir _) => (Raise (oserror EISDIR path), d)
           | inl e => (Raise (oserror e path), d)
           end.

(** [open(path, 'wb').write(data)]: creates or truncates the file. *)
Definition write_file (path data : string) : M Disk unit :=
  fun d => match namei_parent d path with
           | inl e => (Raise (oserror e path), d)
           | inr (par, name) =>
               if is_dots name then (Raise (oserror EISDIR path), d)
               else match get (root d) (par ++ [name])%list with
                    | Some (Dir _) => (Raise (oserror EISDIR path), d)
                    | _ =>
                        match update_dir (root d) par (set_entry name (File data)) with
                        | Some r => (Ok tt, mkDisk r (cwd d) (journal d))
                        | None => (Raise (oserror ENOENT path), d)
                        end
                    end
           end.

(** [os.path.samefile(a, b)] when both exist (the model has no links). *)
Definition samefile (d : Disk) (a b : string) : bool :=
  match namei d a, namei d b with
  | inr ca, inr cb =>
      if list_eq_dec string_dec ca cb then true else false
  | _, _ => false
  end.

(** [shutil.copyfile(src, dst)] *)
Definition shutil_copyfile (src dst : string) : M Disk unit :=
  log (Call_copyfile src dst) ;;;
  same <- gets (fun d => samefile d src dst) ;;
  if same : bool then
    raise (Exc "SameFileError" ("'" ++ src ++ "' and '" ++ dst ++ "' are the same file"))
  else
    data <- read_file src ;;
    write_file dst data.

Definition distutils_error (msg : string) : PyExc := Exc "DistutilsFileError" msg.

(** [distutils.dir_util.mkpath(name)]; its cache of created paths is not
    modelled. *)
Definition mkpath (name : string) : M Disk unit :=
  if name =? "" then ret tt
  else try_except (mkdir_p name true)
         (fun e => raise (distutils_error
            ("could not create '" ++ name ++ "': " ++ exc_str e))).

(** [distutils.file_util.copy_file(src, dst)] *)
Definition copy_file (src dst : string) : M Disk unit :=
  isf <- os_path_isfile src ;;
  if negb isf then
    raise (distutils_error
      ("can't copy '" ++ src ++ "': doesn't exist or not a regular file"))
  else
    isd <- os_path_isdir dst ;;
    let dst := if isd : bool then PosixPath.join2 dst (PosixPath.basename src) else dst in
    data <- read_file src ;;
    write_file dst data.

(** [distutils.dir_util.copy_tree(src, dst)]; [depth] bounds the recursion as
    the interpreter's recursion limit does. *)
Fixpoint copy_tree_rec (depth : nat) (src dst : string) : M Disk unit :=
  match depth with
  | O => raise (Exc "RecursionError" "maximum recursion depth exceeded")
  | S depth' =>
      isd <- os_path_isdir src ;;
      if negb isd then
        raise (distutils_error ("cannot copy tree '" ++ src ++ "': not a directory"))
      else
        names <- os_listdir src ;;
        mkpath dst ;;;
        for_each names (fun n =>
          let src_name := PosixPath.join2 src n in
          let dst_name := PosixPath.join2 dst n in
          if startswith n ".nfs" then ret tt
          else
            sub <- os_path_isdir src_name ;;
            if sub : bool then copy_tree_rec depth' src_name dst_name
            else copy_file src_name dst_name)
  end.

Definition recursion_limit : nat := 1000.

Definition distutils_copy_tree (src dst : string) : M Disk unit :=
  log (Call_copy_tree src dst) ;;; copy_tree_rec recursion_limit src dst.

End Lib.

(** ** [pathlib] *)

Module Pathlib.

(** The number of slashes that a string starts with. *)
Fixpoint leading_seps (s : string) : nat :=
  match s with
  | String c s' => if Ascii.eqb c PosixPath.sep then S (leading_seps s') else O
  | EmptyString => O
  end.

(** The root of a POSIX path: none, one slash, or two when the path starts
    with exactly two. *)
Definition root_of (s : string) : string :=
  match leading_seps s with
  | O => ""
  | 2 => "//"
  | _ => "/"
  end.

Fixpoint join_parts (parts : list string) : string :=
  match parts with
  | [] => ""
  | [x] => x
  | x :: rest => x ++ "/" ++ join_parts rest
  end.

(** [str(pathlib.Path(s))] on POSIX: empty and [.] components are dropped,
    [..] is kept, and the empty path is written [.]. *)
Definition str (s : string) : string :=
  let parts := filter (fun c => negb ((c =? "") || (c =? ".")))
                 (split_on PosixPath.sep s) in
  let text := root_of s ++ join_parts parts in
  if text =? "" then "." else text.

End Pathlib.

(** ** Python dictionaries, in insertion order *)

Module PyDict.
Section Dict.
Context {V : Type}.

Definition dict : Type := list (string * V).

(** [d[k]], as an option *)
Fixpoint getitem (d : dict) (k : string) : option V :=
  match d with
  | [] => None
  | (k', v) :: d' => if k' =? k then Some v else getitem d' k
  end.

(** [k in d] *)
Definition contains (d : dict) (k : string) : bool :=
  match getitem d k with Some _ => true | None => false end.

(** [d[k] = v]: an existing key keeps its position, a new key goes last. *)
Fixpoint setitem (d : dict) (k : string) (v : V) : dict :=
  match d with
  | [] => [(k, v)]
  | (k', v') :: d' =>
      if k' =? k then (k', v) :: d' else (k', v') :: setitem d' k v
  end.

(** [d.items()] *)
Definition items (d : dict) : list (string * V) := d.

(** [d.keys()] *)
Definition keys (d : dict) : list string := map fst d.
End Dict.
Arguments dict V : clear implicits.
End PyDict.

(** ** The world the back-ends act on: the local disk and the remote stores *)

Definition World (Remote : Type) : Type := (Disk * Remote)%type.

(** Runs a computation on the local disk inside the world. *)
Definition on_disk {Remote A} (m : M Disk A) : M (World Remote) A :=
  fun w => let '(r, d') := m (fst w) in (r, (d', snd w)).

(** ** [class DataPersistence] *)

Module DataPersistence.

(** An instance: its address [oid] (what [id(self)] returns), its [name] and
    its methods. [construct_path] does not touch the stores. *)
Record t (Remote : Type) : Type := mk {
  oid : nat;
  name : string;
  listdir : string -> bool -> M (World Remote) (list string);
  exists_ : string -> M (World Remote) bool;
  download_directory : string -> string -> M (World Remote) unit;
  download : string -> string -> M (World Remote) unit;
  upload : string -> string -> M (World Remote) unit;
  upload_directory : string -> string -> M (World Remote) unit;
  construct_path : bool -> list string -> result string
}.
Arguments mk {Remote}.
Arguments oid {Remote}.
Arguments name {Remote}.
Arguments listdir {Remote}.
Arguments exists_ {Remote}.
Arguments download_directory {Remote}.
Arguments download {Remote}.
Arguments upload {Remote}.
Arguments upload_directory {Remote}.
Arguments construct_path {Remote}.

(** [p == plugin]: no class of the module defines [__eq__], so this is
    [object.__eq__], the comparison of the two addresses. *)
Definition eqb {Remote} (p q : t Remote) : bool := Nat.eqb (oid p) (oid q).

(** The body of [listdir] in the base class. *)
Definition listdir_unsupported {Remote} (self_name : string)
  : string -> bool -> M (World Remote) (list string) :=
  fun _ _ => raise (Exc "UnsupportedPersistenceOp"
    ("Listing a directory is not supported by the persistence plugin " ++ self_name)).

End DataPersistence.

(** ** [class DataPersistencePlugins] *)

Module DataPersistencePlugins.
Section Registry.
Context {Remote : Type}.

(** The class attribute [_PLUGINS]. *)
Definition Registry : Type := PyDict.dict (DataPersistence.t Remote).

Definition conflict_message (plugin_name protocol existing_name : string) : string :=
  "Cannot register plugin " ++ plugin_name ++ " for protocol " ++ protocol
  ++ " as plugin " ++ existing_name ++ " is already"
  ++ " registered for the same protocol. You can force register the new plugin by passing force=True".

Definition register_plugin (protocol : string) (plugin : DataPersistence.t Remote)
    (force : bool) : M Registry unit :=
  fun _PLUGINS =>
    match PyDict.getitem _PLUGINS protocol with
    | Some p =>
        if DataPersistence.eqb p plugin then (Ok tt, _PLUGINS)
        else if negb force then
          (Raise (Exc "TypeError"
             (conflict_message (DataPersistence.name plugin) protocol
                               (DataPersistence.name p))),
           _PLUGINS)
        else (Ok tt, PyDict.setitem _PLUGINS protocol plugin)
    | None => (Ok tt, PyDict.setitem _PLUGINS protocol plugin)
    end.

Definition not_found_message (path : string) : string :=
  "No plugin found for matching protocol of path " ++ path.

Fixpoint find_in (items : list (string * DataPersistence.t Remote)) (path : string)
  : result (DataPersistence.t Remote) :=
  match items with
  | [] => Raise (Exc "TypeError" (not_found_message path))
  | (k, p) :: rest => if startswith path k then Ok p else find_in rest path
  end.

Definition find_plugin (_PLUGINS : Registry) (path : string)
  : result (DataPersistence.t Remote) :=
  find_in (PyDict.items _PLUGINS) path.

Definition is_supported_protocol (_PLUGINS : Registry) (protocol : string) : bool :=
  PyDict.contains _PLUGINS protocol.

(** What [print_all_plugins] prints, line by line. *)
Definition print_all_plugins (_PLUGINS : Registry) : list string :=
  map (fun '(k, p) => "Plugin " ++ DataPersistence.name p
                      ++ " registered for protocol " ++ k)
      (PyDict.items _PLUGINS).
End Registry.
Arguments Registry Remote : clear implicits.
End DataPersistencePlugins.

(** ** [class DiskPersistence] *)

Module DiskPersistence.

Definition PROTOCOL : string := "file://".

(** The subclasses of [OSError] that the model of the library raises. *)
Definition is_OSError (e : PyExc) : bool :=
  existsb (String.eqb (exc_class e))
    ["OSError"; "FileNotFoundError"; "NotADirectoryError"; "FileExistsError";
     "IsADirectoryError"; "PermissionError"; "SameFileError"].

Definition _make_local_path (path : string) : M Disk unit :=
  ex <- Lib.os_path_exists path ;;
  if negb ex then
    try_except (Lib.os_makedirs path)
      (fun e =>
         if is_OSError e then
           isd <- Lib.os_path_isdir path ;;
           if negb isd then raise e else ret tt
         else raise e)
  else ret tt.

Definition strip_file_header (path : string) : string :=
  if startswith path "file://" then replace_first path "file://" ""
  else path.

(** The generator [listdir], as the list of what it yields. *)
Definition listdir (path : string) (recursive : bool) : M Disk (list string) :=
  if negb recursive then
    files <- Lib.os_listdir (strip_file_header path) ;;
    ret files
  else
    triples <- Lib.os_walk (strip_file_header path) ;;
    ret (flat_map (fun '(root, subdirs, files) =>
                     map (fun f => PosixPath.join root [f]) files) triples).

Definition exists_ (path : string) : M Disk bool :=
  Lib.os_path_exists (strip_file_header path).

Definition download_directory (from_path to_path : string) : M Disk unit :=
  if negb (from_path =? to_path) then
    Lib.distutils_copy_tree (strip_file_header from_path) (strip_file_header to_path)
  else ret tt.

Definition download (from_path to_path : string) : M Disk unit :=
  Lib.shutil_copyfile (strip_file_header from_path) (strip_file_header to_path).

Definition upload (from_path to_path : string) : M Disk unit :=
  _make_local_path (PosixPath.dirname (strip_file_header to_path)) ;;;
  Lib.shutil_copyfile (strip_file_header from_path) (strip_file_header to_path).

Definition upload_directory (from_path to_path : string) : M Disk unit :=
  download_directory from_path to_path.

(** [os.path.join] needs at least one argument. *)
Definition construct_path (add_protocol : bool) (args : list string) : result string :=
  if add_protocol then Ok (PosixPath.join PROTOCOL args)
  else match args with
       | a :: p => Ok (PosixPath.join a p)
       | [] => Raise (Exc "TypeError" "join() missing 1 required positional argument: 'a'")
       end.

(** [DiskPersistence()]: the new instance, at the address [o]. *)
Definition new {Remote : Type} (o : nat) : DataPersistence.t Remote :=
  DataPersistence.mk o "local"
    (fun path recursive => on_disk (listdir path recursive))
    (fun path => on_disk (exists_ path))
    (fun a b => on_disk (download_directory a b))
    (fun a b => on_disk (download a b))
    (fun a b => on_disk (upload a b))
    (fun a b => on_disk (upload_directory a b))
    construct_path.

End DiskPersistence.

(** ** Collaborators that are imported from other modules *)

(** Modelled from the spec: [flytekit.common.utils.PerformanceTimer] is not
    among the sources; the design document calls [getData] and [putData]
    "timed" wrappers, so the context manager runs its body and lets its
    result or exception through. *)
Definition PerformanceTimer {S A} (context_statement : string) (body : M S A) : M S A :=
  body.

(** The objects that the expression [random.random.getrandbits(128)] goes
    through: a generator (an instance of [random.Random]) and the built-in
    methods bound to it. *)
Inductive attr_name : Type := attr_random | attr_getrandbits.

Definition attr_text (a : attr_name) : string :=
  match a with
  | attr_random => "random"
  | attr_getrandbits => "getrandbits"
  end.

Inductive PyObject : Type :=
| Random_generator
| Builtin_method (name : attr_name).

(** Modelled from the spec: [flytekit.interfaces.random] is not among the
    sources. The design document only says that a random value of 128 bits is
    generated; the name [random] that the module imports from there is taken
    to be the generator that the package keeps for itself, an instance of
    [random.Random]. *)
Definition random : PyObject := Random_generator.

(** [getattr(obj, name)] for the two names that the module asks for. The
    generator has both as built-in methods; a built-in method object has
    neither. *)
Definition getattr (obj : PyObject) (name : attr_name) : result PyObject :=
  match obj with
  | Random_generator => Ok (Builtin_method name)
  | Builtin_method _ =>
      Raise (Exc "AttributeError"
               ("'builtin_function_or_method' object has no attribute '"
                ++ attr_text name ++ "'"))
  end.

(** [Random.getrandbits(k)] of the standard library: an integer below [2^k],
    drawn from [entropy], the next output of the generator. *)
Definition getrandbits (k : N) (entropy : N) : N := (entropy mod 2 ^ k)%N.

(** [f(k)] for an object [f] and one integer argument. *)
Definition call_with_int (f : PyObject) (k : N) (entropy : N) : result N :=
  match f with
  | Builtin_method attr_getrandbits => Ok (getrandbits k entropy)
  | Builtin_method attr_random =>
      Raise (Exc "TypeError" "Random.random() takes no arguments (1 given)")
  | Random_generator => Raise (Exc "TypeError" "'Random' object is not callable")
  end.

(** The expression [random.random.getrandbits(k)] of line 247. *)
Definition random_random_getrandbits (k : N) (entropy : N) : result N :=
  match getattr random attr_random with
  | Raise e => Raise e
  | Ok method =>
      match getattr method attr_getrandbits with
      | Raise e => Raise e
      | Ok f => call_with_int f k entropy
      end
  end.

(** [UUID(int=n).hex] *)
Definition uuid_hex (n : N) : string := hex_fixed 32 n.

Definition newline : string := String (ascii_of_nat 10) EmptyString.

(** ** [class FileAccessProvider] *)

Module FileAccessProvider.
Section Provider.
Context {Remote : Type}.
Local Abbreviation Backend := (DataPersistence.t Remote).
Local Abbreviation Registry := (DataPersistencePlugins.Registry Remote).

Record t : Type := mk {
  _local_sandbox_dir : string;
  _local : Backend;
  _default_remote : Backend;
  _raw_output_prefix : string
}.

(** Lifts the outcome of a call that only reads the registry. *)
Definition lift_result {A} (r : result A) : M (World Remote) A :=
  match r with
  | Ok a => ret a
  | Raise e => raise e
  end.

(** [FileAccessProvider(local_sandbox_dir, raw_output_prefix)]; [_PLUGINS]
    is the registry at the time of the call and [o] the address of the new
    [DiskPersistence] instance. [_local_sandbox_dir] is a [pathlib.Path],
    kept here by its string. *)
Definition __init__ (_PLUGINS : Registry) (o : nat)
    (local_sandbox_dir : option string) (raw_output_prefix : string)
  : M (World Remote) t :=
  match local_sandbox_dir with
  | None => raise (Exc "Exception" "Can't use empty path")
  | Some dir =>
      if dir =? "" then raise (Exc "Exception" "Can't use empty path")
      else
        let local_sandbox_dir_appended := PosixPath.join dir ["local_flytekit"] in
        let sandbox_path := Pathlib.str local_sandbox_dir_appended in
        on_disk (Lib.pathlib_mkdir_parents sandbox_path) ;;;
        let local := DiskPersistence.new o in
        default_remote <-
          lift_result (DataPersistencePlugins.find_plugin _PLUGINS raw_output_prefix) ;;
        ret (mk sandbox_path local default_remote raw_output_prefix)
  end.

Definition is_remote (path : string) : bool :=
  if startswith path "/" || startswith path "file://" then false else true.

Definition local_sandbox_dir (self : t) : string := _local_sandbox_dir self.
Definition local_access (self : t) : Backend := _local self.

(** [entropy] is what the random generator yields for this call. A hint
    without a file name only logs a warning. *)
Definition construct_random_path (self : t) (persist : Backend)
    (file_path_or_file_name : option string) (entropy : N) : result string :=
  match random_random_getrandbits 128 entropy with
  | Raise e => Raise e
  | Ok bits =>
      let key := uuid_hex bits in
      let plain :=
        DataPersistence.construct_path persist false [_raw_output_prefix self; key] in
      match file_path_or_file_name with
      | None => plain
      | Some hint =>
          if hint =? "" then plain
          else
            let tail := snd (PosixPath.split hint) in
            if negb (tail =? "") then
              DataPersistence.construct_path persist false
                [_raw_output_prefix self; key; tail]
            else plain
      end
  end.

Definition get_random_remote_path (self : t)
    (file_path_or_file_name : option string) (entropy : N) : result string :=
  construct_random_path self (_default_remote self) file_path_or_file_name entropy.

Definition get_random_remote_directory (self : t) (entropy : N) : result string :=
  get_random_remote_path self None entropy.

Definition get_random_local_path (self : t)
    (file_path_or_file_name : option string) (entropy : N) : result string :=
  construct_random_path self (_local self) file_path_or_file_name entropy.

Definition get_random_local_directory (self : t) (entropy : N)
  : M (World Remote) string :=
  _dir <- lift_result (get_random_local_path self None entropy) ;;
  on_disk (Lib.pathlib_mkdir_parents (Pathlib.str _dir)) ;;;
  ret _dir.

Definition exists_ (_PLUGINS : Registry) (self : t) (path : string)
  : M (World Remote) bool :=
  p <- lift_result (DataPersistencePlugins.find_plugin _PLUGINS path) ;;
  DataPersistence.exists_ p path.

Definition download_directory (_PLUGINS : Registry) (self : t)
    (remote_path local_path : string) : M (World Remote) unit :=
  p <- lift_result (DataPersistencePlugins.find_plugin _PLUGINS remote_path) ;;
  DataPersistence.download_directory p remote_path local_path.

Definition download (_PLUGINS : Registry) (self : t)
    (remote_path local_path : string) : M (World Remote) unit :=
  p <- lift_result (DataPersistencePlugins.find_plugin _PLUGINS remote_path) ;;
  DataPersistence.download p remote_path local_path.

Definition upload (_PLUGINS : Registry) (self : t)
    (file_path to_path : string) : M (World Remote) unit :=
  p <- lift_result (DataPersistencePlugins.find_plugin _PLUGINS to_path) ;;
  DataPersistence.upload p file_path to_path.

Definition upload_directory (_PLUGINS : Registry) (self : t)
    (local_path remote_path : string) : M (World Remote) unit :=
  p <- lift_result (DataPersistencePlugins.find_plugin _PLUGINS remote_path) ;;
  DataPersistence.upload_directory p local_path remote_path.

Definition get_data_message (remote_path local_path : string)
    (is_multipart : bool) (error_string : string) : string :=
  "Failed to get data from " ++ remote_path ++ " to " ++ local_path
  ++ " (recursive=" ++ str_of_bool is_multipart ++ ")." ++ newline ++ newline
  ++ "Original exception: " ++ error_string.

Definition get_data (_PLUGINS : Registry) (self : t)
    (remote_path local_path : string) (is_multipart : bool)
  : M (World Remote) unit :=
  try_except
    (PerformanceTimer ("Copying (" ++ remote_path ++ " -> " ++ local_path ++ ")")
       (if is_multipart then download_directory _PLUGINS self remote_path local_path
        else download _PLUGINS self remote_path local_path))
    (fun ex =>
       raise (ExcDuring "FlyteAssertion"
                (get_data_message remote_path local_path is_multipart (exc_str ex))
                ex)).

Definition put_data_message (local_path remote_path : string)
    (is_multipart : bool) (error_string : string) : string :=
  "Failed to put data from " ++ local_path ++ " to " ++ remote_path
  ++ " (recursive=" ++ str_of_bool is_multipart ++ ")." ++ newline ++ newline
  ++ "Original exception: " ++ error_string.

Definition put_data (self : t)
    (local_path remote_path : string) (is_multipart : bool)
  : M (World Remote) unit :=
  try_except
    (PerformanceTimer ("Writing (" ++ local_path ++ " -> " ++ remote_path ++ ")")
       (if is_multipart
        then DataPersistence.upload_directory (_default_remote self) local_path remote_path
        else DataPersistence.upload (_default_remote self) local_path remote_path))
    (fun ex =>
       raise (ExcFrom "FlyteAssertion"
                (put_data_message local_path remote_path is_multipart (exc_str ex))
                ex)).
End Provider.
Arguments t Remote : clear implicits.
End FileAccessProvider.

(** ** What the module does when it is imported *)

(** The two [register_plugin] calls at the end of the module, on the empty
    registry; [o1] and [o2] are the addresses of the two instances. *)
Definition module_registry {Remote : Type} (o1 o2 : nat)
  : DataPersistencePlugins.Registry Remote :=
  snd ((DataPersistencePlugins.register_plugin "file://" (DiskPersistence.new o1) false ;;;
        DataPersistencePlugins.register_plugin "/" (DiskPersistence.new o2) false) []).

(** ** A second back-end, for the examples: an object store in memory *)

Module MemPersistence.

Definition Objects : Type := PyDict.dict string.

Definition PROTOCOL : string := "mem://".

Definition exists_ (path : string) : M (World Objects) bool :=
  gets (fun w => PyDict.contains (snd w) path).

Definition download (remote_path local_path : string) : M (World Objects) unit :=
  found <- gets (fun w => PyDict.getitem (snd w) remote_path) ;;
  match found with
  | Some data => on_disk (Lib.write_file local_path data)
  | None => raise (Exc "KeyError" remote_path)
  end.

Definition upload (file_path to_path : string) : M (World Objects) unit :=
  data <- on_disk (Lib.read_file file_path) ;;
  modify (fun w => (fst w, PyDict.setitem (snd w) to_path data)).

Definition unsupported (op : string) : M (World Objects) unit :=
  raise (Exc "UnsupportedPersistenceOp" (op ++ " is not supported by the persistence plugin mem")).

Definition construct_path (add_protocol : bool) (args : list string) : result string :=
  DiskPersistence.construct_path false (if add_protocol then PROTOCOL :: args else args).

Definition new (o : nat) : DataPersistence.t Objects :=
  DataPersistence.mk o "mem"
    (DataPersistence.listdir_unsupported "mem")
    exists_
    (fun _ _ => unsupported "download_directory")
    download
    upload
    (fun _ _ => unsupported "upload_directory")
    construct_path.

End MemPersistence.

(** The directory [/d] that holds [a.txt] and [sub/b.txt], next to an empty
    [/tmp]. *)
Definition example_tree : node :=
  Dir [("d", Dir [("a.txt", File "A"); ("sub", Dir [("b.txt", File "B")])]);
       ("tmp", Dir [])].

Definition example_disk : Disk := mkDisk example_tree [] [].

(** ** [flytekit.extras.sqlite3.task]: [unarchive_file] *)

Module PyRepr.

Definition quote1 : ascii := ascii_of_nat 39.
Definition quote2 : ascii := ascii_of_nat 34.
Definition backslash : ascii := ascii_of_nat 92.

Fixpoint contains_char (c : ascii) (s : string) : bool :=
  match s with
  | EmptyString => false
  | String a s' => Ascii.eqb a c || contains_char c s'
  end.

(** The characters below U+0100 that [repr] writes as an escape: the control
    characters, the non-breaking space and the soft hyphen. *)
Definition not_printable (c : ascii) : bool :=
  let n := nat_of_ascii c in
  ((n <? 32) || (n =? 127) || ((128 <=? n) && (n <=? 160)) || (n =? 173))%nat.

Definition repr_char (quote c : ascii) : string :=
  if Ascii.eqb c quote || Ascii.eqb c backslash then String backslash (String c "")
  else if Ascii.eqb c (ascii_of_nat 9) then String backslash "t"
  else if Ascii.eqb c (ascii_of_nat 10) then String backslash "n"
  else if Ascii.eqb c (ascii_of_nat 13) then String backslash "r"
  else if not_printable c then String backslash ("x" ++ hex_fixed 2 (N_of_ascii c))
  else String c "".

Fixpoint repr_chars (quote : ascii) (s : string) : string :=
  match s with
  | EmptyString => EmptyString
  | String c s' => repr_char quote c ++ repr_chars quote s'
  end.

(** [repr(s)] for a [str] whose characters are below U+0100. *)
Definition repr_str (s : string) : string :=
  let quote := if contains_char quote1 s && negb (contains_char quote2 s)
               then quote2 else quote1 in
  String quote (repr_chars quote s ++ String quote "").

Fixpoint join_with (sep : string) (l : list string) : string :=
  match l with
  | [] => ""
  | [x] => x
  | x :: l' => x ++ sep ++ join_with sep l'
  end.

(** [repr(l)] for a list of [str]. *)
Definition repr_list (l : list string) : string :=
  "[" ++ join_with ", " (map repr_str l) ++ "]".

End PyRepr.

Module Sqlite3Task.

(** [unarchive_file(local_path, to_dir)]. What [shutil.unpack_archive] does
    to the disk depends on the archive, so it is a parameter here. *)
Definition unarchive_file (unpack_archive : string -> string -> M Disk unit)
    (local_path to_dir : string) : M Disk string :=
  let archive_dir := PosixPath.join to_dir ["_arch"] in
  unpack_archive local_path archive_dir ;;;
  files <- Lib.os_listdir archive_dir ;;
  if match files with [] => true | _ => false end
     || (length files =? 0)%nat || (1 <? length files)%nat
  then raise (Exc "RuntimeError"
                ("Uncompressed archive should contain only one file - found "
                 ++ PyRepr.repr_list files ++ "!"))
  else ret (PosixPath.join archive_dir [hd "" files]).

End Sqlite3Task.

(** ** Notions used to state the properties *)

(** The first key of [items], in order, that [path] starts with. *)
Fixpoint first_matching_key {V} (items : list (string * V)) (path : string)
  : option string :=
  match items with
  | [] => None
  | (k, _) :: rest => if startswith path k then Some k else first_matching_key rest path
  end.

(** The registry of the examples: the two registrations of the module and a
    third one for the object store. *)
Definition example_registry : DataPersistencePlugins.Registry MemPersistence.Objects :=
  snd (DataPersistencePlugins.register_plugin "mem://" (MemPersistence.new 3) false
         (module_registry 1 2)).

(** [file_at n cs]: following the entry names [cs] from [n] leads to a
    file. *)
Inductive file_at : node -> list string -> Prop :=
| file_here data : file_at (File data) []
| file_below es name child cs :
    In (name, child) es -> file_at child cs -> file_at (Dir es) (name :: cs).

(** What the loop of [listdir] yields from the triples of a walk. *)
Definition yielded (triples : list (string * list string * list string)) : list string :=
  flat_map (fun '(root, subdirs, files) =>
              map (fun f => PosixPath.join root [f]) files) triples.

(** The client of the examples: its sandbox is [/tmp/sandbox] and its raw
    output prefix is in the object store. *)
Definition example_provider : FileAccessProvider.t MemPersistence.Objects :=
  FileAccessProvider.mk "/tmp/sandbox/local_flytekit" (DiskPersistence.new 5)
    (MemPersistence.new 3) "mem://bucket/raw".

Definition example_world : World MemPersistence.Objects := (example_disk, []).

(** A computation that leaves the journal of calls as it found it. *)
Definition keeps_journal {A} (m : M Disk A) : Prop :=
  forall d, journal (snd (m d)) = journal d.

(** The client that the module builds on import, for a [tmp_dir] of
    [/tmp/flyte/20210101_000000]. *)
Definition default_local_file_access_provider : FileAccessProvider.t unit :=
  FileAccessProvider.mk "/tmp/flyte/20210101_000000/sandbox/local_flytekit"
    (DiskPersistence.new 5) (DiskPersistence.new 2) "/tmp/flyte/20210101_000000/raw".

(** [keeps_node n n']: [n'] is the file [n], or a directory where [n] is
    one. *)
Definition keeps_node (n n' : node) : Prop :=
  match n with
  | File data => n' = File data
  | Dir _ => exists es, n' = Dir es
  end.

(** [same_kind n n']: both are files or both are directories. *)
Definition same_kind (n n' : node) : Prop :=
  match n with
  | File _ => exists data, n' = File data
  | Dir _ => exists es, n' = Dir es
  end.

(** [extends r r']: whatever is in the tree [r] is in [r'] at the same place,
    files with their content. *)
Definition extends (r r' : node) : Prop :=
  forall cs n, get r cs = Some n -> exists n', get r' cs = Some n' /\ keeps_node n n'.

(** [shape_extends r r']: whatever is in [r] is in [r'] at the same place, as
    a file or as a directory; the content of a file may differ. *)
Definition shape_extends (r r' : node) : Prop :=
  forall cs n, get r cs = Some n -> exists n', get r' cs = Some n' /\ same_kind n n'.

(** A computation that keeps the working directory and everything that is on
    the disk. *)
Definition keeps_files {A} (m : M Disk A) : Prop :=
  forall d, cwd (snd (m d)) = cwd d /\ extends (root d) (root (snd (m d))).

(** * Properties *)

(** ** Strings *)

Lemma startswith_app (k s : string) : startswith (k ++ s) k = true.
Proof.
  induction k as [|c k IH]; simpl; [reflexivity|].
  now rewrite Ascii.eqb_refl, IH.
Qed.

Lemma startswith_refl (s : string) : startswith s s = true.
Proof.
  induction s as [|c s IH]; simpl; [reflexivity|].
  now rewrite Ascii.eqb_refl, IH.
Qed.

Lemma startswith_spec (s k : string) :
  startswith s k = true <-> exists rest, s = k ++ rest.
Proof.
  split.
  - revert s. induction k as [|c k IH]; intros s H.
    + now exists s.
    + destruct s as [|d s]; simpl in H; [discriminate|].
      apply andb_true_iff in H as [Hc Hk].
      apply Ascii.eqb_eq in Hc. subst d.
      destruct (IH _ Hk) as [rest ->]. now exists rest.
  - intros [rest ->]. apply startswith_app.
Qed.

Lemma drop_app (k s : string) : drop (String.length k) (k ++ s) = s.
Proof. induction k as [|c k IH]; simpl; [now destruct s|exact IH]. Qed.

Lemma append_nil_r (s : string) : s ++ "" = s.
Proof. induction s as [|c s IH]; simpl; [reflexivity|now rewrite IH]. Qed.

Lemma append_assoc (a b c : string) : (a ++ b) ++ c = a ++ (b ++ c).
Proof. induction a as [|x a IH]; simpl; [reflexivity|now rewrite IH]. Qed.

Lemma occurs_in_here (x post : string) : occurs_in x (x ++ post).
Proof. exists "", post. reflexivity. Qed.

Lemma occurs_in_app_r (x pre s : string) : occurs_in x s -> occurs_in x (pre ++ s).
Proof.
  intros (a & b & ->). exists (pre ++ a), b. now rewrite append_assoc.
Qed.

Lemma occurs_in_app_l (x s post : string) : occurs_in x s -> occurs_in x (s ++ post).
Proof.
  intros (a & b & ->). exists a, (b ++ post). now rewrite !append_assoc.
Qed.

Lemma occurs_in_refl (x : string) : occurs_in x x.
Proof. exists "", "". simpl. now rewrite append_nil_r. Qed.

(** Finds [x] as one of the pieces of a concatenation. *)
Ltac find_occurrence :=
  solve [ repeat first [ apply occurs_in_refl | apply occurs_in_here
                       | apply occurs_in_app_r ] ].


(** ** The registry *)

Section RegistryFacts.
Context {Remote : Type}.
Local Abbreviation Backend := (DataPersistence.t Remote).
Local Abbreviation Registry := (DataPersistencePlugins.Registry Remote).
Import DataPersistencePlugins(find_in, not_found_message).

Lemma eqb_refl (p : Backend) : DataPersistence.eqb p p = true.
Proof. apply Nat.eqb_refl. Qed.

Lemma getitem_setitem_same (d : Registry) k (v : Backend) :
  PyDict.getitem (PyDict.setitem d k v) k = Some v.
Proof.
  induction d as [|[k' v'] d IH]; simpl.
  - now rewrite String.eqb_refl.
  - destruct (k' =? k) eqn:E; simpl; rewrite E; [reflexivity|exact IH].
Qed.

Lemma getitem_setitem_other (d : Registry) k k2 (v : Backend) :
  k2 <> k -> PyDict.getitem (PyDict.setitem d k v) k2 = PyDict.getitem d k2.
Proof.
  intros Hne. induction d as [|[k' v'] d IH]; simpl.
  - destruct (k =? k2) eqn:E; [apply String.eqb_eq in E; congruence|reflexivity].
  - destruct (k' =? k) eqn:E; simpl.
    + apply String.eqb_eq in E. subst k'.
      destruct (k =? k2) eqn:E2; [apply String.eqb_eq in E2; congruence|reflexivity].
    + now rewrite IH.
Qed.

Lemma keys_setitem_bound (d : Registry) k (v w : Backend) :
  PyDict.getitem d k = Some w -> PyDict.keys (PyDict.setitem d k v) = PyDict.keys d.
Proof.
  induction d as [|[k' v'] d IH]; simpl; [discriminate|].
  destruct (k' =? k) eqn:E; simpl; [reflexivity|].
  intros H. unfold PyDict.keys in *. simpl. now rewrite IH.
Qed.

Lemma setitem_same_value (d : Registry) k (v : Backend) :
  PyDict.getitem d k = Some v -> PyDict.setitem d k v = d.
Proof.
  induction d as [|[k' v'] d IH]; simpl; [discriminate|].
  destruct (k' =? k) eqn:E.
  - now intros [= ->].
  - intros H. now rewrite IH.
Qed.

Lemma find_in_first_match (items : list (string * Backend)) (path : string) :
  match find_in items path with
  | Ok p =>
      exists before k after,
        items = (before ++ (k, p) :: after)%list
        /\ startswith path k = true
        /\ forall k' p', In (k', p') before -> startswith path k' = false
  | Raise e =>
      e = Exc "TypeError" (not_found_message path)
      /\ forall k p, In (k, p) items -> startswith path k = false
  end.
Proof.
  induction items as [|[k p] rest IH]; simpl.
  - split; [reflexivity|]. intros ? ? [].
  - destruct (startswith path k) eqn:E.
    + exists [], k, rest. repeat split; auto. intros ? ? [].
    + destruct (find_in rest path) as [q|e].
      * destruct IH as (before & k0 & after & -> & Hk0 & Hbefore).
        exists ((k, p) :: before), k0, after. repeat split; auto.
        intros k' p' [[= <- <-]|Hin]; eauto.
      * destruct IH as [-> Hnone]. split; [reflexivity|].
        intros k' p' [[= <- <-]|Hin]; eauto.
Qed.

Lemma find_in_only_match (items : list (string * Backend)) path key p :
  (forall k, In k (map fst items) -> startswith path k = true -> k = key) ->
  startswith path key = true ->
  PyDict.getitem items key = Some p ->
  find_in items path = Ok p.
Proof.
  induction items as [|[k q] rest IH]; simpl; [discriminate|].
  intros Honly Hkey Hget. destruct (startswith path k) eqn:E.
  - assert (k = key) as -> by (apply Honly; auto).
    rewrite String.eqb_refl in Hget. congruence.
  - destruct (k =? key) eqn:Ek.
    + apply String.eqb_eq in Ek. congruence.
    + apply IH; auto.
Qed.

Lemma find_in_first_matching_key (items : list (string * Backend)) path key p :
  first_matching_key items path = Some key ->
  PyDict.getitem items key = Some p ->
  find_in items path = Ok p.
Proof.
  induction items as [|[k q] rest IH]; simpl; [discriminate|].
  destruct (startswith path k) eqn:E.
  - intros [= ->]. rewrite String.eqb_refl. congruence.
  - intros Hfirst. destruct (k =? key) eqn:Ek; [|now apply IH].
    apply String.eqb_eq in Ek. subst k. exfalso.
    clear IH. induction rest as [|[k' q'] rest IH]; simpl in Hfirst; [discriminate|].
    destruct (startswith path k') eqn:E'; [congruence|auto].
Qed.

Lemma first_matching_key_setitem (d : Registry) path k (v w : Backend) :
  PyDict.getitem d k = Some w ->
  first_matching_key (PyDict.setitem d k v) path = first_matching_key d path.
Proof.
  induction d as [|[k' v'] d IH]; simpl; [discriminate|].
  destruct (k' =? k) eqn:E; simpl; [reflexivity|].
  intros H. now rewrite IH.
Qed.
End RegistryFacts.

(** C1. [find_plugin] goes through the registered prefixes in registration
    order and returns the back-end of the first one that the path starts
    with; when the path starts with none of them it raises the [TypeError]
    that reports the missing plugin. In particular, in a registry whose
    prefixes are ["file://"], ["/"] and ["mem://"], the path
    ["mem://bucket/key"] resolves to the back-end bound to ["mem://"] and
    ["/tmp/x"] to the one bound to ["/"]. *)
Theorem find_plugin_first_registered_prefix {Remote : Type}
    (plugins : DataPersistencePlugins.Registry Remote) (path : string) :
  match DataPersistencePlugins.find_plugin plugins path with
  | Ok p =>
      exists before k after,
        PyDict.items plugins = (before ++ (k, p) :: after)%list
        /\ startswith path k = true
        /\ forall k' p', In (k', p') before -> startswith path k' = false
  | Raise e =>
      e = Exc "TypeError" (DataPersistencePlugins.not_found_message path)
      /\ forall k p, In (k, p) (PyDict.items plugins) -> startswith path k = false
  end
  /\ ((forall k, In k (PyDict.keys plugins) -> k = "file://" \/ k = "/" \/ k = "mem://") ->
      (forall mem, PyDict.getitem plugins "mem://" = Some mem ->
         DataPersistencePlugins.find_plugin plugins "mem://bucket/key" = Ok mem)
      /\ (forall disk, PyDict.getitem plugins "/" = Some disk ->
         DataPersistencePlugins.find_plugin plugins "/tmp/x" = Ok disk)).
Proof.
  split.
  - apply find_in_first_match.
  - intros Hkeys. split; intros b Hb.
    + apply find_in_only_match with (key := "mem://"); auto.
      intros k Hin Hk. destruct (Hkeys k Hin) as [->|[->| ->]];
        [discriminate Hk|discriminate Hk|reflexivity].
    + apply find_in_only_match with (key := "/"); auto.
      intros k Hin Hk. destruct (Hkeys k Hin) as [->|[->| ->]];
        [discriminate Hk|reflexivity|discriminate Hk].
Qed.

Lemma find_plugin_first_registered_prefix_witness :
  DataPersistencePlugins.find_plugin example_registry "mem://bucket/key"
    = Ok (MemPersistence.new 3)
  /\ DataPersistencePlugins.find_plugin example_registry "/tmp/x"
    = Ok (DiskPersistence.new 2).
Proof.
  destruct (find_plugin_first_registered_prefix example_registry "mem://bucket/key")
    as [_ H].
  destruct H as [Hmem Hdisk].
  - intros k Hin. simpl in Hin. intuition auto.
  - split; [apply Hmem|apply Hdisk]; reflexivity.
Defined.

(** C2, as the code has it. When [protocol] is bound to [A] and [B] is another
    back-end, [register_plugin protocol B] without [force] raises a
    [TypeError] whose message names [B], [A] and the protocol, and the registry
    stays as it was; with [force] it succeeds, the protocol is then bound to
    [B] and keeps its place in the registration order. [find_plugin] on the
    protocol itself returns [A] before and [B] after when no prefix registered
    earlier matches the protocol string. *)
Theorem register_plugin_conflict_and_force {Remote : Type}
    (plugins : DataPersistencePlugins.Registry Remote) (protocol : string)
    (A B : DataPersistence.t Remote) :
  PyDict.getitem plugins protocol = Some A ->
  DataPersistence.eqb A B = false ->
  let msg := DataPersistencePlugins.conflict_message
               (DataPersistence.name B) protocol (DataPersistence.name A) in
  DataPersistencePlugins.register_plugin protocol B false plugins
    = (Raise (Exc "TypeError" msg), plugins)
  /\ occurs_in (DataPersistence.name A) msg
  /\ occurs_in (DataPersistence.name B) msg
  /\ occurs_in protocol msg
  /\ DataPersistencePlugins.register_plugin protocol B true plugins
    = (Ok tt, PyDict.setitem plugins protocol B)
  /\ PyDict.getitem (PyDict.setitem plugins protocol B) protocol = Some B
  /\ PyDict.keys (PyDict.setitem plugins protocol B) = PyDict.keys plugins
  /\ (first_matching_key plugins protocol = Some protocol ->
      DataPersistencePlugins.find_plugin plugins protocol = Ok A
      /\ DataPersistencePlugins.find_plugin (PyDict.setitem plugins protocol B) protocol
         = Ok B).
Proof.
  intros Hget Hne msg.
  unfold DataPersistencePlugins.register_plugin. rewrite Hget, Hne. simpl.
  repeat split.
  - unfold msg, DataPersistencePlugins.conflict_message. find_occurrence.
  - unfold msg, DataPersistencePlugins.conflict_message. find_occurrence.
  - unfold msg, DataPersistencePlugins.conflict_message. find_occurrence.
  - apply getitem_setitem_same.
  - eapply keys_setitem_bound; eassumption.
  - eapply find_in_first_matching_key; eassumption.
  - apply find_in_first_matching_key with (key := protocol).
    + erewrite first_matching_key_setitem; eassumption.
    + apply getitem_setitem_same.
Qed.

Lemma register_plugin_conflict_and_force_witness :
  fst (DataPersistencePlugins.register_plugin "mem://" (MemPersistence.new 4) false
         example_registry)
    = Raise (Exc "TypeError"
        "Cannot register plugin mem for protocol mem:// as plugin mem is already registered for the same protocol. You can force register the new plugin by passing force=True")
  /\ snd (DataPersistencePlugins.register_plugin "mem://" (MemPersistence.new 4) false
            example_registry) = example_registry
  /\ DataPersistencePlugins.find_plugin
       (snd (DataPersistencePlugins.register_plugin "mem://" (MemPersistence.new 4) true
               example_registry)) "mem://"
     = Ok (MemPersistence.new 4).
Proof.
  destruct (register_plugin_conflict_and_force example_registry "mem://"
              (MemPersistence.new 3) (MemPersistence.new 4) eq_refl eq_refl)
    as (Hfail & _ & _ & _ & Hforce & _ & _ & Hresolve).
  destruct (Hresolve eq_refl) as [_ HB].
  rewrite Hfail, Hforce. split; [reflexivity|split; [reflexivity|exact HB]].
Defined.

(** The registry after the module was imported and ["/data"] was bound to a
    back-end [A]: ["/"] was registered first, so [find_plugin "/data"] gives
    the disk back-end of ["/"], before and after [B] is registered by force. *)
Lemma forced_registration_behind_shorter_prefix :
  let A := MemPersistence.new 3 in
  let B := MemPersistence.new 4 in
  let disk := DiskPersistence.new 2 in
  let plugins :=
    snd (DataPersistencePlugins.register_plugin "/data" A false (module_registry 1 2)) in
  let forced := DataPersistencePlugins.register_plugin "/data" B true plugins in
  PyDict.getitem plugins "/data" = Some A
  /\ DataPersistence.eqb A B = false
  /\ DataPersistencePlugins.find_plugin plugins "/data" = Ok disk
  /\ DataPersistencePlugins.find_plugin plugins "/data" <> Ok A
  /\ fst forced = Ok tt
  /\ DataPersistencePlugins.find_plugin (snd forced) "/data" = Ok disk
  /\ DataPersistencePlugins.find_plugin (snd forced) "/data" <> Ok B.
Proof.
  assert (Hoid : forall p q : DataPersistence.t MemPersistence.Objects,
             DataPersistence.oid p <> DataPersistence.oid q ->
             @Ok (DataPersistence.t MemPersistence.Objects) p <> Ok q).
  { intros p q Hne [= ->]. now apply Hne. }
  cbv zeta. repeat split; try reflexivity; apply Hoid; simpl; lia.
Qed.

(** C6. Registering again, for a protocol, the back-end that the protocol is
    bound to raises nothing and leaves the registry as it was, with or without
    [force]; so does registering any back-end that compares equal to it. *)
Theorem register_plugin_idempotent {Remote : Type}
    (plugins : DataPersistencePlugins.Registry Remote) (protocol : string)
    (plugin : DataPersistence.t Remote) (force : bool) :
  PyDict.getitem plugins protocol = Some plugin ->
  DataPersistencePlugins.register_plugin protocol plugin force plugins = (Ok tt, plugins)
  /\ forall same, DataPersistence.eqb plugin same = true ->
       DataPersistencePlugins.register_plugin protocol same force plugins = (Ok tt, plugins).
Proof.
  intros Hget. unfold DataPersistencePlugins.register_plugin. rewrite Hget.
  split.
  - now rewrite eqb_refl.
  - intros same ->. reflexivity.
Qed.

Lemma register_plugin_idempotent_witness :
  DataPersistencePlugins.register_plugin "/" (DiskPersistence.new 2) false
    (module_registry 1 2)
  = (Ok tt, @module_registry MemPersistence.Objects 1 2).
Proof.
  destruct (@register_plugin_idempotent MemPersistence.Objects (module_registry 1 2) "/"
              (DiskPersistence.new 2) false eq_refl) as [H _].
  exact H.
Defined.

(** ** Which library calls a computation makes *)

Section Journal.
Context {A B : Type}.

Lemma keeps_ret (a : A) : keeps_journal (ret a).
Proof. now intros d. Qed.

Lemma keeps_raise (e : PyExc) : keeps_journal (@raise Disk A e).
Proof. now intros d. Qed.

Lemma keeps_gets (f : Disk -> A) : keeps_journal (gets f).
Proof. now intros d. Qed.

Lemma keeps_bind (m : M Disk A) (k : A -> M Disk B) :
  keeps_journal m -> (forall a, keeps_journal (k a)) -> keeps_journal (bind m k).
Proof.
  intros Hm Hk d. unfold bind. specialize (Hm d).
  destruct (m d) as [[a|e] d1]; simpl in *.
  - now rewrite Hk.
  - exact Hm.
Qed.

Lemma keeps_try_except (m : M Disk A) (h : PyExc -> M Disk A) :
  keeps_journal m -> (forall e, keeps_journal (h e)) -> keeps_journal (try_except m h).
Proof.
  intros Hm Hh d. unfold try_except. specialize (Hm d).
  destruct (m d) as [[a|e] d1]; simpl in *.
  - exact Hm.
  - now rewrite Hh.
Qed.

Lemma keeps_if (b : bool) (m1 m2 : M Disk A) :
  keeps_journal m1 -> keeps_journal m2 -> keeps_journal (if b then m1 else m2).
Proof. now destruct b. Qed.
End Journal.

Lemma keeps_for_each {A} (xs : list A) (body : A -> M Disk unit) :
  (forall x, keeps_journal (body x)) -> keeps_journal (for_each xs body).
Proof.
  intros Hbody. induction xs as [|x xs IH]; simpl.
  - apply keeps_ret.
  - apply keeps_bind; auto.
Qed.

(** A logged call followed by work that logs nothing adds one entry. *)
Lemma journal_log_then {A} (c : fs_call) (m : M Disk A) (d : Disk) :
  keeps_journal m ->
  journal (snd ((Lib.log c ;;; m) d)) = (journal d ++ [c])%list.
Proof.
  intros Hm. unfold bind, Lib.log, modify. simpl. now rewrite Hm.
Qed.


Create HintDb journal.
#[local] Hint Resolve keeps_ret keeps_raise keeps_gets keeps_bind keeps_try_except
  keeps_if keeps_for_each : journal.

Lemma keeps_os_path_exists p : keeps_journal (Lib.os_path_exists p).
Proof. apply keeps_gets. Qed.

Lemma keeps_os_path_isdir p : keeps_journal (Lib.os_path_isdir p).
Proof. apply keeps_gets. Qed.

Lemma keeps_os_path_isfile p : keeps_journal (Lib.os_path_isfile p).
Proof. apply keeps_gets. Qed.

Lemma keeps_os_listdir p : keeps_journal (Lib.os_listdir p).
Proof.
  intros d. unfold Lib.os_listdir. now destruct (stat d p) as [e|[data|es]].
Qed.

Lemma keeps_read_file p : keeps_journal (Lib.read_file p).
Proof.
  intros d. unfold Lib.read_file. now destruct (stat d p) as [e|[data|es]].
Qed.

Lemma keeps_write_file p data : keeps_journal (Lib.write_file p data).
Proof.
  intros d. unfold Lib.write_file.
  destruct (namei_parent d p) as [e|[par name]]; [reflexivity|].
  destruct (Lib.is_dots name); [reflexivity|].
  destruct (get (root d) (par ++ [name])) as [[?|?]|];
    try reflexivity;
    now destruct (update_dir (root d) par (set_entry name (File data))).
Qed.

Lemma keeps_mkdir_p p exist_ok : keeps_journal (Lib.mkdir_p p exist_ok).
Proof.
  intros d. unfold Lib.mkdir_p.
  destruct (p =? ""); [reflexivity|].
  destruct (Lib.mkdirs_from _ _ _ _) as [r [e|[|]]]; try reflexivity.
  destruct (stat _ p) as [e|[data|es]]; try reflexivity.
  now destruct exist_ok.
Qed.

#[local] Hint Resolve keeps_os_path_exists keeps_os_path_isdir keeps_os_path_isfile
  keeps_os_listdir keeps_read_file keeps_write_file keeps_mkdir_p : journal.

Lemma keeps_mkpath p : keeps_journal (Lib.mkpath p).
Proof. unfold Lib.mkpath. auto with journal. Qed.

Lemma keeps_copy_file src dst : keeps_journal (Lib.copy_file src dst).
Proof.
  unfold Lib.copy_file.
  apply keeps_bind; [auto with journal|]. intros isf.
  apply keeps_if; [auto with journal|].
  apply keeps_bind; [auto with journal|]. intros isd.
  apply keeps_bind; auto with journal.
Qed.

Lemma keeps_copy_tree_rec depth : forall src dst,
  keeps_journal (Lib.copy_tree_rec depth src dst).
Proof.
  induction depth as [|depth IH]; intros src dst; simpl.
  - apply keeps_raise.
  - apply keeps_bind; [auto with journal|]. intros isd.
    apply keeps_if; [auto with journal|].
    apply keeps_bind; [auto with journal|]. intros names.
    apply keeps_bind; [apply keeps_mkpath|]. intros _.
    apply keeps_for_each. intros n.
    apply keeps_if; [auto with journal|].
    apply keeps_bind; [auto with journal|]. intros sub.
    apply keeps_if; [apply IH|apply keeps_copy_file].
Qed.

Lemma journal_distutils_copy_tree src dst d :
  journal (snd (Lib.distutils_copy_tree src dst d))
  = (journal d ++ [Call_copy_tree src dst])%list.
Proof. apply journal_log_then, keeps_copy_tree_rec. Qed.

Lemma journal_os_makedirs p d :
  journal (snd (Lib.os_makedirs p d)) = (journal d ++ [Call_makedirs p])%list.
Proof. apply journal_log_then, keeps_mkdir_p. Qed.

Lemma journal_shutil_copyfile src dst d :
  journal (snd (Lib.shutil_copyfile src dst d))
  = (journal d ++ [Call_copyfile src dst])%list.
Proof.
  apply journal_log_then.
  apply keeps_bind; [auto with journal|]. intros same.
  apply keeps_if; auto with journal.
Qed.

(** ** The disk back-end *)

Lemma strip_file_header_prefixed (p : string) :
  DiskPersistence.strip_file_header ("file://" ++ p) = p.
Proof. reflexivity. Qed.

Lemma strip_file_header_bare (p : string) :
  startswith p "file://" = false -> DiskPersistence.strip_file_header p = p.
Proof. unfold DiskPersistence.strip_file_header. now intros ->. Qed.

Lemma strip_file_header_drops_seven (p : string) :
  startswith p "file://" = true -> DiskPersistence.strip_file_header p = drop 7 p.
Proof.
  intros H. apply startswith_spec in H as [rest ->].
  now rewrite strip_file_header_prefixed.
Qed.

Lemma eqb_prefixed (a b : string) : ("file://" ++ a =? "file://" ++ b) = (a =? b).
Proof. reflexivity. Qed.

Lemma journal_make_local_path_missing p d :
  fst (Lib.os_path_exists p d) = Ok false ->
  journal (snd (DiskPersistence._make_local_path p d))
  = (journal d ++ [Call_makedirs p])%list.
Proof.
  unfold DiskPersistence._make_local_path, bind.
  unfold Lib.os_path_exists, gets at 1 2. simpl.
  intros [= ->]. simpl. unfold try_except.
  pose proof (journal_os_makedirs p d) as Hj.
  destruct (Lib.os_makedirs p d) as [[[]|e] d1]; simpl in *; [exact Hj|].
  destruct (DiskPersistence.is_OSError e); [|exact Hj].
  unfold Lib.os_path_isdir, gets. simpl.
  now destruct (match stat d1 p with inr (Dir _) => true | _ => false end).
Qed.

(** C9. A path that does not itself begin with ["file://"] and the same path
    behind ["file://"] are interchangeable in every operation of the disk
    back-end, when all the path arguments of the call are written the same
    way. *)
Theorem disk_operations_accept_file_scheme (a b : string) (recursive : bool) (d : Disk) :
  startswith a "file://" = false ->
  startswith b "file://" = false ->
  DiskPersistence.exists_ ("file://" ++ a) d = DiskPersistence.exists_ a d
  /\ DiskPersistence.listdir ("file://" ++ a) recursive d
     = DiskPersistence.listdir a recursive d
  /\ DiskPersistence.download ("file://" ++ a) ("file://" ++ b) d
     = DiskPersistence.download a b d
  /\ DiskPersistence.download_directory ("file://" ++ a) ("file://" ++ b) d
     = DiskPersistence.download_directory a b d
  /\ DiskPersistence.upload ("file://" ++ a) ("file://" ++ b) d
     = DiskPersistence.upload a b d
  /\ DiskPersistence.upload_directory ("file://" ++ a) ("file://" ++ b) d
     = DiskPersistence.upload_directory a b d.
Proof.
  intros Ha Hb.
  unfold DiskPersistence.exists_, DiskPersistence.listdir, DiskPersistence.download,
    DiskPersistence.upload, DiskPersistence.upload_directory,
    DiskPersistence.download_directory.
  rewrite eqb_prefixed, !strip_file_header_prefixed,
    (strip_file_header_bare a Ha), (strip_file_header_bare b Hb).
  repeat split.
Qed.

Lemma disk_operations_accept_file_scheme_witness :
  DiskPersistence.listdir "file:///d" true example_disk
  = DiskPersistence.listdir "/d" true example_disk
  /\ DiskPersistence.upload "file:///d/a.txt" "file:///tmp/copy/a.txt" example_disk
     = DiskPersistence.upload "/d/a.txt" "/tmp/copy/a.txt" example_disk.
Proof.
  destruct (disk_operations_accept_file_scheme "/d" "/d" true example_disk
              eq_refl eq_refl) as (_ & Hlist & _).
  destruct (disk_operations_accept_file_scheme "/d/a.txt" "/tmp/copy/a.txt" true
              example_disk eq_refl eq_refl) as (_ & _ & _ & _ & Hup & _).
  split; [exact Hlist|exact Hup].
Defined.

(** C8, as the code has it. [download_directory] compares the two path strings
    as they were passed: when they are the same string it does nothing at all;
    when they differ it calls [copy_tree] on the two stripped paths, also when
    both then name the same directory. *)
Theorem download_directory_skips_identical_strings (from_path to_path : string) (d : Disk) :
  (from_path = to_path ->
     DiskPersistence.download_directory from_path to_path d = (Ok tt, d))
  /\ (from_path <> to_path ->
     DiskPersistence.download_directory from_path to_path d
     = Lib.distutils_copy_tree (DiskPersistence.strip_file_header from_path)
         (DiskPersistence.strip_file_header to_path) d
     /\ journal (snd (DiskPersistence.download_directory from_path to_path d))
        = (journal d ++ [Call_copy_tree (DiskPersistence.strip_file_header from_path)
                           (DiskPersistence.strip_file_header to_path)])%list).
Proof.
  unfold DiskPersistence.download_directory. split.
  - intros ->. now rewrite String.eqb_refl.
  - intros Hne. apply String.eqb_neq in Hne. rewrite Hne. simpl.
    split; [reflexivity|apply journal_distutils_copy_tree].
Qed.

Lemma download_directory_skips_identical_strings_witness :
  DiskPersistence.download_directory "/d" "/d" example_disk = (Ok tt, example_disk)
  /\ journal (snd (DiskPersistence.download_directory "/d" "/tmp/e" example_disk))
     = [Call_copy_tree "/d" "/tmp/e"].
Proof.
  destruct (download_directory_skips_identical_strings "/d" "/d" example_disk)
    as [Hsame _].
  destruct (download_directory_skips_identical_strings "/d" "/tmp/e" example_disk)
    as [_ Hdiff].
  split; [apply Hsame; reflexivity|].
  apply Hdiff. discriminate.
Defined.

(** ["file:///d"] and ["/d"] name the same directory, and so do ["/d/"] and
    ["/d"], yet [download_directory] calls [copy_tree] for them. With
    ["file:///gone"] and ["/gone"], which both name the same missing
    directory, the call raises instead of returning. *)
Lemma download_directory_copies_onto_same_directory :
  Lib.samefile example_disk (DiskPersistence.strip_file_header "file:///d")
    (DiskPersistence.strip_file_header "/d") = true
  /\ DiskPersistence.download_directory "file:///d" "/d" example_disk
     = (Ok tt, mkDisk example_tree [] [Call_copy_tree "/d" "/d"])
  /\ DiskPersistence.download_directory "file:///d" "/d" example_disk
     <> (Ok tt, example_disk)
  /\ Lib.samefile example_disk "/d/" "/d" = true
  /\ DiskPersistence.download_directory "/d/" "/d" example_disk
     = (Ok tt, mkDisk example_tree [] [Call_copy_tree "/d/" "/d"])
  /\ fst (DiskPersistence.download_directory "file:///gone" "/gone" example_disk)
     = Raise (Exc "DistutilsFileError" "cannot copy tree '/gone': not a directory").
Proof.
  repeat split; try (vm_compute; reflexivity).
  vm_compute. discriminate.
Qed.

(** C10. On the disk back-end [upload_directory] is [download_directory]: the
    same outcome on every pair of paths and every disk, nothing at all when
    the two strings are identical and otherwise the one call of [copy_tree];
    it never calls [makedirs], whereas [upload] calls it first whenever the
    parent directory of the destination is missing. *)
Theorem upload_directory_is_download_directory (from_path to_path : string) (d : Disk) :
  DiskPersistence.upload_directory from_path to_path d
  = DiskPersistence.download_directory from_path to_path d
  /\ (from_path = to_path ->
      DiskPersistence.upload_directory from_path to_path d = (Ok tt, d))
  /\ journal (snd (DiskPersistence.upload_directory from_path to_path d))
     = (journal d ++
        if from_path =? to_path then []
        else [Call_copy_tree (DiskPersistence.strip_file_header from_path)
                (DiskPersistence.strip_file_header to_path)])%list
  /\ (fst (Lib.os_path_exists
             (PosixPath.dirname (DiskPersistence.strip_file_header to_path)) d)
      = Ok false ->
      exists rest,
        journal (snd (DiskPersistence.upload from_path to_path d))
        = (journal d ++
           Call_makedirs (PosixPath.dirname (DiskPersistence.strip_file_header to_path))
           :: rest)%list).
Proof.
  split; [reflexivity|]. split; [|split].
  - intros ->. unfold DiskPersistence.upload_directory, DiskPersistence.download_directory.
    now rewrite String.eqb_refl.
  - unfold DiskPersistence.upload_directory, DiskPersistence.download_directory.
    destruct (from_path =? to_path); simpl.
    + now rewrite app_nil_r.
    + apply journal_distutils_copy_tree.
  - intros Hmissing. unfold DiskPersistence.upload, bind.
    pose proof (journal_make_local_path_missing _ _ Hmissing) as Hj.
    destruct (DiskPersistence._make_local_path _ d) as [[[]|e] d1]; simpl in *.
    + exists [Call_copyfile (DiskPersistence.strip_file_header from_path)
                (DiskPersistence.strip_file_header to_path)].
      rewrite journal_shutil_copyfile, Hj, <- app_assoc. reflexivity.
    + exists []. exact Hj.
Qed.

Lemma upload_directory_is_download_directory_witness :
  DiskPersistence.upload_directory "/gone/x" "/gone/x" example_disk = (Ok tt, example_disk)
  /\ exists rest,
       journal (snd (DiskPersistence.upload "/gone/x" "/gone/x" example_disk))
       = Call_makedirs "/gone" :: rest.
Proof.
  destruct (upload_directory_is_download_directory "/gone/x" "/gone/x" example_disk)
    as (_ & Hsame & _ & Hupload).
  split; [apply Hsame; reflexivity|].
  apply Hupload. reflexivity.
Defined.

(** On the example disk, [upload] to a destination whose parent is missing
    creates that parent before it fails to find the source; [upload_directory]
    with the same two strings changes nothing. *)
Example upload_creates_parent_upload_directory_does_not :
  DiskPersistence.upload "/gone/x" "/gone/x" example_disk
  = (Raise (Exc "FileNotFoundError" "[Errno 2] No such file or directory: '/gone/x'"),
     mkDisk (Dir [("d", Dir [("a.txt", File "A"); ("sub", Dir [("b.txt", File "B")])]);
                  ("tmp", Dir []); ("gone", Dir [])])
            [] [Call_makedirs "/gone"; Call_copyfile "/gone/x" "/gone/x"])
  /\ DiskPersistence.upload_directory "/gone/x" "/gone/x" example_disk
     = (Ok tt, example_disk).
Proof. split; vm_compute; reflexivity. Qed.

(** ** Walking a directory tree *)

Lemma node_induction (P : node -> Prop) :
  (forall data, P (File data)) ->
  (forall es, (forall name child, In (name, child) es -> P child) -> P (Dir es)) ->
  forall n, P n.
Proof.
  intros Hfile Hdir. fix IH 1. intros [data|es].
  - apply Hfile.
  - apply Hdir. induction es as [|[k m] es IHes].
    + intros ? ? [].
    + intros name child [[= <- <-]|Hin]; [apply IH|eapply IHes; eassumption].
Qed.

Lemma walk_node_dir (top : string) (es : list (string * node)) :
  Lib.walk_node top (Dir es)
  = (top, map fst (filter Lib.is_dir_entry es),
          map fst (filter (fun e => negb (Lib.is_dir_entry e)) es))
    :: flat_map (fun e => Lib.walk_node (PosixPath.join2 top (fst e)) (snd e)) es.
Proof. reflexivity. Qed.

Lemma yielded_app (l1 l2 : list (string * list string * list string)) :
  yielded (l1 ++ l2) = (yielded l1 ++ yielded l2)%list.
Proof. apply flat_map_app. Qed.

Lemma yielded_cons (root : string) (subdirs files : list string)
    (rest : list (string * list string * list string)) :
  yielded ((root, subdirs, files) :: rest)
  = (map (fun f => PosixPath.join root [f]) files ++ yielded rest)%list.
Proof. reflexivity. Qed.

Lemma in_yielded_flat_map (es : list (string * node)) (top s : string) :
  In s (yielded (flat_map (fun e => Lib.walk_node (PosixPath.join2 top (fst e)) (snd e)) es))
  <-> exists name child,
        In (name, child) es
        /\ In s (yielded (Lib.walk_node (PosixPath.join2 top name) child)).
Proof.
  induction es as [|[k m] es IH]; simpl.
  - split; [intros []|intros (? & ? & [] & _)].
  - rewrite yielded_app, in_app_iff, IH. split.
    + intros [Hs|(name & child & Hin & Hs)]; eauto 6.
    + intros (name & child & [[= <- <-]|Hin] & Hs); eauto 6.
Qed.

Lemma in_files_of_dir (es : list (string * node)) (top s : string) :
  In s (map (fun f => PosixPath.join top [f])
          (map fst (filter (fun e => negb (Lib.is_dir_entry e)) es)))
  <-> exists name data, In (name, File data) es /\ s = PosixPath.join2 top name.
Proof.
  rewrite map_map, in_map_iff. split.
  - intros ([name [data|sub]] & <- & Hin); apply filter_In in Hin as [Hin Hfile];
      [eauto|discriminate].
  - intros (name & data & Hin & ->). exists (name, File data).
    split; [reflexivity|]. apply filter_In. now split.
Qed.

(** What a recursive listing yields: for every file below the directory, the
    path of the walk's top joined with the entry names that lead to it. *)
Lemma in_yielded_walk_node (n : node) : forall (top s : string),
  In s (yielded (Lib.walk_node top n))
  <-> exists cs, file_at n cs /\ cs <> [] /\ s = PosixPath.join top cs.
Proof.
  induction n as [data|es IH] using node_induction; intros top s.
  - simpl. split; [intros []|].
    intros (cs & Hfile & Hne & _). inversion Hfile; subst. now destruct Hne.
  - rewrite walk_node_dir, yielded_cons, in_app_iff, in_files_of_dir,
      in_yielded_flat_map. split.
    + intros [(name & data & Hin & ->)|(name & child & Hin & H)].
      * exists [name]. repeat split; [|discriminate].
        econstructor; [eassumption|constructor].
      * apply (IH name child Hin) in H as (cs & Hfile & Hne & ->).
        exists (name :: cs). repeat split; [|discriminate].
        econstructor; eassumption.
    + intros (cs & Hfile & Hne & ->). inversion Hfile as [|es' name child cs' Hin Hchild]; subst.
      destruct cs' as [|c cs'].
      * left. inversion Hchild; subst. eauto.
      * right. exists name, child. split; [assumption|].
        apply (IH name child Hin). exists (c :: cs'). repeat split; [assumption|discriminate].
Qed.

(** C7, as the code has it. When the stripped path names a directory, the
    listing that is not recursive yields the names of all its entries, files
    and sub-directories alike, in directory order; the recursive listing
    yields, for every file below the directory and nothing else, the stripped
    path itself joined with the entry names that lead to the file. Neither
    changes the disk. *)
Theorem listdir_of_directory (path : string) (d : Disk) (es : list (string * node)) :
  stat d (DiskPersistence.strip_file_header path) = inr (Dir es) ->
  DiskPersistence.listdir path false d = (Ok (map fst es), d)
  /\ exists files,
       DiskPersistence.listdir path true d = (Ok files, d)
       /\ forall s, In s files <->
            exists cs, file_at (Dir es) cs
                       /\ s = PosixPath.join (DiskPersistence.strip_file_header path) cs.
Proof.
  intros Hstat. split.
  - unfold DiskPersistence.listdir, bind, Lib.os_listdir. simpl. now rewrite Hstat.
  - exists (yielded (Lib.walk_node (DiskPersistence.strip_file_header path) (Dir es))).
    split.
    + unfold DiskPersistence.listdir, bind, Lib.os_walk, gets. simpl. now rewrite Hstat.
    + intros s. rewrite in_yielded_walk_node. split.
      * intros (cs & Hfile & _ & ->). eauto.
      * intros (cs & Hfile & ->). exists cs. repeat split; [assumption|].
        inversion Hfile. discriminate.
Qed.

Lemma listdir_of_directory_witness :
  DiskPersistence.listdir "file:///d" false example_disk = (Ok ["a.txt"; "sub"], example_disk)
  /\ exists files,
       DiskPersistence.listdir "file:///d" true example_disk = (Ok files, example_disk)
       /\ In "/d/sub/b.txt" files.
Proof.
  destruct (listdir_of_directory "file:///d" example_disk
              [("a.txt", File "A"); ("sub", Dir [("b.txt", File "B")])] eq_refl)
    as [Hflat (files & Hrec & Hin)].
  split; [exact Hflat|].
  exists files. split; [exact Hrec|].
  apply Hin. exists ["sub"; "b.txt"]. split; [|reflexivity].
  apply file_below with (child := Dir [("b.txt", File "B")]); [simpl; auto|].
  apply file_below with (child := File "B"); [simpl; auto|].
  apply file_here.
Defined.

(** The directory [/d] holds [a.txt] and [sub/b.txt]. Its listing that is not
    recursive yields ["sub"] next to ["a.txt"]; its recursive listing yields
    ["/d/a.txt"] and ["/d/sub/b.txt"], not the paths relative to [/d]. *)
Lemma listdir_recursive_keeps_walk_root :
  DiskPersistence.listdir "/d" false example_disk = (Ok ["a.txt"; "sub"], example_disk)
  /\ DiskPersistence.listdir "/d" false example_disk <> (Ok ["a.txt"], example_disk)
  /\ DiskPersistence.listdir "/d" true example_disk
     = (Ok ["/d/a.txt"; "/d/sub/b.txt"], example_disk)
  /\ (forall files, DiskPersistence.listdir "/d" true example_disk = (Ok files, example_disk) ->
        ~ In "a.txt" files /\ ~ In "sub/b.txt" files).
Proof.
  split; [reflexivity|]. split; [discriminate|]. split; [reflexivity|].
  intros files [= <-]. split; intros [H|[H|[]]]; discriminate H.
Qed.

(** ** The client *)

Section ClientFacts.
Context {Remote : Type}.

Lemma init_outcome (plugins : DataPersistencePlugins.Registry Remote) (o : nat)
    (sandbox : option string) (raw : string) (w0 w1 : World Remote)
    (self : FileAccessProvider.t Remote) :
  FileAccessProvider.__init__ plugins o sandbox raw w0 = (Ok self, w1) ->
  exists dir backend,
    sandbox = Some dir /\ dir <> ""
    /\ DataPersistencePlugins.find_plugin plugins raw = Ok backend
    /\ self = FileAccessProvider.mk
                (Pathlib.str (PosixPath.join dir ["local_flytekit"]))
                (DiskPersistence.new o) backend raw.
Proof.
  unfold FileAccessProvider.__init__. destruct sandbox as [dir|]; [|discriminate].
  destruct (dir =? "") eqn:Edir; [discriminate|].
  apply String.eqb_neq in Edir. unfold bind.
  destruct (on_disk _ w0) as [[[]|e] w]; [|discriminate].
  destruct (DataPersistencePlugins.find_plugin plugins raw) as [backend|e];
    simpl; [|discriminate].
  intros [= <- <-]. eauto 6.
Qed.
End ClientFacts.

(** C3. No random path is generated. Line 247 asks the generator that the
    module imports for its attribute [random], which is the built-in method
    [random()], and then asks that method for [getrandbits], which it does not
    have: [construct_random_path] raises [AttributeError] before it builds
    any path, for every client, back-end, hint and state of the generator, and
    so do [get_random_local_path] and [get_random_remote_path]. This includes
    the client that the module itself builds on import (sandbox
    [<tmp_dir>/sandbox], raw output prefix [<tmp_dir>/raw]). *)
Theorem construct_random_path_raises_attribute_error {Remote : Type}
    (self : FileAccessProvider.t Remote) (persist : DataPersistence.t Remote)
    (hint : option string) (entropy : N) :
  let e := Exc "AttributeError"
             "'builtin_function_or_method' object has no attribute 'getrandbits'" in
  random_random_getrandbits 128 entropy = Raise e
  /\ FileAccessProvider.construct_random_path self persist hint entropy = Raise e
  /\ FileAccessProvider.get_random_local_path self hint entropy = Raise e
  /\ FileAccessProvider.get_random_remote_path self hint entropy = Raise e
  /\ fst (FileAccessProvider.__init__ (module_registry 1 2) 5
            (Some "/tmp/flyte/20210101_000000/sandbox") "/tmp/flyte/20210101_000000/raw"
            (example_disk, tt))
     = Ok default_local_file_access_provider
  /\ FileAccessProvider.get_random_local_path default_local_file_access_provider
       hint entropy = Raise e.
Proof.
  intros e.
  assert (Hbits : random_random_getrandbits 128 entropy = Raise e) by reflexivity.
  split; [exact Hbits|].
  unfold FileAccessProvider.get_random_local_path,
    FileAccessProvider.get_random_remote_path,
    FileAccessProvider.construct_random_path.
  rewrite Hbits. repeat split.
Qed.

(** C4. Whatever the back-end raises inside [get_data] or [put_data] comes out
    as a [FlyteAssertion] whose message holds the remote path, the local path,
    the flag and the text of the original exception, which is kept as its
    context (for [put_data], its cause); a failure to resolve the path is
    wrapped the same way, so nothing else is ever raised by the two. *)
Theorem get_data_put_data_wrap_failures {Remote : Type}
    (plugins : DataPersistencePlugins.Registry Remote)
    (self : FileAccessProvider.t Remote)
    (remote_path local_path : string) (is_multipart : bool) (w : World Remote) :
  (forall backend ex w',
     DataPersistencePlugins.find_plugin plugins remote_path = Ok backend ->
     (if is_multipart
      then DataPersistence.download_directory backend remote_path local_path
      else DataPersistence.download backend remote_path local_path) w = (Raise ex, w') ->
     let msg := FileAccessProvider.get_data_message remote_path local_path is_multipart
                  (exc_str ex) in
     FileAccessProvider.get_data plugins self remote_path local_path is_multipart w
       = (Raise (ExcDuring "FlyteAssertion" msg ex), w')
     /\ occurs_in remote_path msg /\ occurs_in local_path msg
     /\ occurs_in ("recursive=" ++ str_of_bool is_multipart) msg
     /\ occurs_in (exc_str ex) msg)
  /\ (forall ex w',
     (if is_multipart
      then DataPersistence.upload_directory (FileAccessProvider._default_remote self)
             local_path remote_path
      else DataPersistence.upload (FileAccessProvider._default_remote self)
             local_path remote_path) w = (Raise ex, w') ->
     let msg := FileAccessProvider.put_data_message local_path remote_path is_multipart
                  (exc_str ex) in
     FileAccessProvider.put_data self local_path remote_path is_multipart w
       = (Raise (ExcFrom "FlyteAssertion" msg ex), w')
     /\ occurs_in remote_path msg /\ occurs_in local_path msg
     /\ occurs_in ("recursive=" ++ str_of_bool is_multipart) msg
     /\ occurs_in (exc_str ex) msg)
  /\ (forall e w',
     FileAccessProvider.get_data plugins self remote_path local_path is_multipart w
       = (Raise e, w') ->
     exists ex, e = ExcDuring "FlyteAssertion"
                      (FileAccessProvider.get_data_message remote_path local_path
                         is_multipart (exc_str ex)) ex)
  /\ (forall e w',
     FileAccessProvider.put_data self local_path remote_path is_multipart w
       = (Raise e, w') ->
     exists ex, e = ExcFrom "FlyteAssertion"
                      (FileAccessProvider.put_data_message local_path remote_path
                         is_multipart (exc_str ex)) ex).
Proof.
  split; [|split; [|split]].
  - intros backend ex w' Hfind Hraise msg.
    split.
    + unfold FileAccessProvider.get_data, try_except, PerformanceTimer,
        FileAccessProvider.download_directory, FileAccessProvider.download.
      rewrite Hfind. unfold FileAccessProvider.lift_result, bind, ret.
      destruct is_multipart; now rewrite Hraise.
    + unfold msg, FileAccessProvider.get_data_message.
      repeat split; try find_occurrence.
      do 4 apply occurs_in_app_r.
      now exists " (", (")." ++ newline ++ newline ++ "Original exception: " ++ exc_str ex).
  - intros ex w' Hraise msg. split.
    + unfold FileAccessProvider.put_data, try_except, PerformanceTimer.
      now rewrite Hraise.
    + unfold msg, FileAccessProvider.put_data_message.
      repeat split; try find_occurrence.
      do 4 apply occurs_in_app_r.
      now exists " (", (")." ++ newline ++ newline ++ "Original exception: " ++ exc_str ex).
  - intros e w'. unfold FileAccessProvider.get_data, try_except, PerformanceTimer.
    match goal with
    | |- context [match ?m w with _ => _ end] => destruct (m w) as [[[]|ex] w1]
    end; [discriminate|].
    intros [= <- <-]. now exists ex.
  - intros e w'. unfold FileAccessProvider.put_data, try_except, PerformanceTimer.
    match goal with
    | |- context [match ?m w with _ => _ end] => destruct (m w) as [[[]|ex] w1]
    end; [discriminate|].
    intros [= <- <-]. now exists ex.
Qed.

Lemma get_data_put_data_wrap_failures_witness :
  fst (FileAccessProvider.get_data example_registry example_provider
         "mem://missing" "/tmp/x" false example_world)
  = Raise (ExcDuring "FlyteAssertion"
             ("Failed to get data from mem://missing to /tmp/x (recursive=False)."
              ++ newline ++ newline ++ "Original exception: mem://missing")
             (Exc "KeyError" "mem://missing"))
  /\ fst (FileAccessProvider.put_data example_provider "/gone" "mem://bucket/k" false
            example_world)
     = Raise (ExcFrom "FlyteAssertion"
                ("Failed to put data from /gone to mem://bucket/k (recursive=False)."
                 ++ newline ++ newline
                 ++ "Original exception: [Errno 2] No such file or directory: '/gone'")
                (Exc "FileNotFoundError" "[Errno 2] No such file or directory: '/gone'")).
Proof.
  destruct (get_data_put_data_wrap_failures example_registry example_provider
              "mem://missing" "/tmp/x" false example_world) as (Hget & _).
  destruct (get_data_put_data_wrap_failures example_registry example_provider
              "mem://bucket/k" "/gone" false example_world) as (_ & Hput & _).
  split.
  - destruct (Hget (MemPersistence.new 3) (Exc "KeyError" "mem://missing") example_world
                eq_refl eq_refl) as [-> _].
    reflexivity.
  - destruct (Hput (Exc "FileNotFoundError" "[Errno 2] No such file or directory: '/gone'")
                example_world eq_refl) as [-> _].
    reflexivity.
Defined.

(** C5. The client that [__init__] returns holds, as its default remote, the
    back-end that [find_plugin] gave for the raw output prefix, and [put_data]
    is the [upload] or [upload_directory] of that back-end on the two paths,
    with a failure wrapped; the registry is no input of [put_data], so the
    back-end that the remote path would resolve to plays no part. *)
Theorem put_data_targets_default_remote {Remote : Type}
    (plugins : DataPersistencePlugins.Registry Remote) (o : nat)
    (sandbox : option string) (raw : string) (w0 w1 : World Remote)
    (self : FileAccessProvider.t Remote) :
  FileAccessProvider.__init__ plugins o sandbox raw w0 = (Ok self, w1) ->
  exists backend,
    DataPersistencePlugins.find_plugin plugins raw = Ok backend
    /\ FileAccessProvider._default_remote self = backend
    /\ forall (local_path remote_path : string) (is_multipart : bool) (w : World Remote),
         FileAccessProvider.put_data self local_path remote_path is_multipart w
         = match (if is_multipart
                  then DataPersistence.upload_directory backend local_path remote_path
                  else DataPersistence.upload backend local_path remote_path) w with
           | (Ok u, w') => (Ok u, w')
           | (Raise ex, w') =>
               (Raise (ExcFrom "FlyteAssertion"
                         (FileAccessProvider.put_data_message local_path remote_path
                            is_multipart (exc_str ex)) ex), w')
           end.
Proof.
  intros Hinit.
  destruct (init_outcome _ _ _ _ _ _ _ Hinit) as (dir & backend & _ & _ & Hfind & ->).
  exists backend. split; [assumption|]. split; [reflexivity|].
  intros local_path remote_path is_multipart w.
  unfold FileAccessProvider.put_data, try_except, PerformanceTimer. simpl.
  destruct is_multipart;
    match goal with
    | |- context [match ?m w with _ => _ end] => destruct (m w) as [[u|ex] w']
    end; reflexivity.
Qed.

(** The remote path ["/tmp/x"] resolves to the disk back-end, and [upload]
    writes it on the disk; [put_data] of the client whose default remote is
    the object store writes the object store and leaves the disk alone. *)
Lemma put_data_targets_default_remote_witness :
  DataPersistencePlugins.find_plugin example_registry "/tmp/x" = Ok (DiskPersistence.new 2)
  /\ FileAccessProvider.put_data example_provider "/d/a.txt" "/tmp/x" false example_world
     = (Ok tt, (example_disk, [("/tmp/x", "A")]))
  /\ FileAccessProvider.upload example_registry example_provider "/d/a.txt" "/tmp/x"
       example_world
     = (Ok tt,
        (mkDisk (Dir [("d", Dir [("a.txt", File "A"); ("sub", Dir [("b.txt", File "B")])]);
                      ("tmp", Dir [("x", File "A")])])
                [] [Call_copyfile "/d/a.txt" "/tmp/x"], [])).
Proof.
  split; [reflexivity|]. split; [|vm_compute; reflexivity].
  destruct (put_data_targets_default_remote example_registry 5 (Some "/tmp/sandbox")
              "mem://bucket/raw" example_world
              (snd (FileAccessProvider.__init__ example_registry 5 (Some "/tmp/sandbox")
                      "mem://bucket/raw" example_world))
              example_provider eq_refl)
    as (backend & Hfind & _ & Hput).
  rewrite Hput. injection Hfind as <-. reflexivity.
Defined.

(** * Further properties of the registry *)

Section RegistryMore.
Context {Remote : Type}.
Local Abbreviation Backend := (DataPersistence.t Remote).
Local Abbreviation Registry := (DataPersistencePlugins.Registry Remote).

Lemma getitem_none_not_in (d : Registry) (k : string) :
  PyDict.getitem d k = None <-> ~ In k (PyDict.keys d).
Proof.
  induction d as [|[k' v] d IH]; simpl; [tauto|].
  destruct (k' =? k) eqn:E.
  - apply String.eqb_eq in E. split; [discriminate|]. intros H. exfalso. auto.
  - apply String.eqb_neq in E. rewrite IH. unfold PyDict.keys. tauto.
Qed.

Lemma setitem_absent (d : Registry) (k : string) (v : Backend) :
  PyDict.getitem d k = None -> PyDict.setitem d k v = (d ++ [(k, v)])%list.
Proof.
  induction d as [|[k' v'] d IH]; simpl; [reflexivity|].
  destruct (k' =? k); [discriminate|]. intros H. now rewrite IH.
Qed.

Lemma find_in_app (l1 l2 : list (string * Backend)) (path : string) :
  DataPersistencePlugins.find_in (l1 ++ l2) path
  = match DataPersistencePlugins.find_in l1 path with
    | Ok p => Ok p
    | Raise _ => DataPersistencePlugins.find_in l2 path
    end.
Proof.
  induction l1 as [|[k p] l1 IH]; simpl; [reflexivity|].
  now destruct (startswith path k).
Qed.

Lemma find_in_raises_not_found (l : list (string * Backend)) (path : string) (e : PyExc) :
  DataPersistencePlugins.find_in l path = Raise e ->
  e = Exc "TypeError" (DataPersistencePlugins.not_found_message path).
Proof.
  intros H. pose proof (find_in_first_match l path) as Hspec.
  rewrite H in Hspec. tauto.
Qed.

(** X1. A protocol that is not registered yet is registered whatever [force]
    is: the call raises nothing and adds the binding at the end of the
    registration order, after every binding that was there. *)
Theorem register_plugin_new_protocol (plugins : Registry) (protocol : string)
    (plugin : Backend) (force : bool) :
  DataPersistencePlugins.is_supported_protocol plugins protocol = false ->
  DataPersistencePlugins.register_plugin protocol plugin force plugins
  = (Ok tt, (plugins ++ [(protocol, plugin)])%list).
Proof.
  unfold DataPersistencePlugins.is_supported_protocol, PyDict.contains,
    DataPersistencePlugins.register_plugin.
  destruct (PyDict.getitem plugins protocol) eqn:E; [discriminate|].
  intros _. now rewrite setitem_absent.
Qed.

(** X2. Registering a protocol that was not registered never changes the
    back-end of a path that resolved before; a path that did not resolve
    resolves afterwards exactly when it starts with the new protocol, and then
    to the new back-end. *)
Theorem register_plugin_new_protocol_resolution (plugins : Registry)
    (protocol path : string) (plugin : Backend) (force : bool) :
  DataPersistencePlugins.is_supported_protocol plugins protocol = false ->
  DataPersistencePlugins.find_plugin
    (snd (DataPersistencePlugins.register_plugin protocol plugin force plugins)) path
  = match DataPersistencePlugins.find_plugin plugins path with
    | Ok p => Ok p
    | Raise e => if startswith path protocol then Ok plugin else Raise e
    end.
Proof.
  intros Hnew.
  unfold DataPersistencePlugins.is_supported_protocol, PyDict.contains in Hnew.
  unfold DataPersistencePlugins.register_plugin.
  destruct (PyDict.getitem plugins protocol) eqn:Eget; [discriminate|]. cbn [snd].
  rewrite setitem_absent by assumption.
  unfold DataPersistencePlugins.find_plugin, PyDict.items. rewrite find_in_app.
  destruct (DataPersistencePlugins.find_in plugins path) as [p|e] eqn:E; [reflexivity|].
  simpl. destruct (startswith path protocol); [reflexivity|].
  now rewrite (find_in_raises_not_found _ _ _ E).
Qed.

(** X3. [register_plugin] keeps the protocols of the registry distinct,
    whether it succeeds or raises. *)
Theorem register_plugin_keeps_keys_distinct (plugins : Registry) (protocol : string)
    (plugin : Backend) (force : bool) :
  NoDup (PyDict.keys plugins) ->
  NoDup (PyDict.keys
           (snd (DataPersistencePlugins.register_plugin protocol plugin force plugins))).
Proof.
  intros Hnodup. unfold DataPersistencePlugins.register_plugin.
  destruct (PyDict.getitem plugins protocol) as [p|] eqn:E.
  - destruct (DataPersistence.eqb p plugin); [exact Hnodup|].
    destruct force; simpl; [|exact Hnodup].
    now rewrite (keys_setitem_bound _ _ _ _ E).
  - simpl. rewrite setitem_absent by assumption.
    unfold PyDict.keys in *. rewrite map_app. simpl.
    apply getitem_none_not_in in E. unfold PyDict.keys in E.
    clear - Hnodup E. induction (map fst plugins) as [|k ks IH]; simpl.
    + constructor; [intros []|constructor].
    + inversion Hnodup as [|? ? Hk Hks]; subst. constructor.
      * rewrite in_app_iff. simpl. intros [H|[H|[]]]; [auto|].
        apply E. now left.
      * apply IH; [assumption|]. intros H. apply E. now right.
Qed.

(** X4. What a call of [register_plugin] leaves behind: when it returns, the
    protocol is bound to a back-end that compares equal to the one passed and
    is reported as supported; it raises only without [force] and when the
    protocol is bound to a back-end that compares different, and then the
    registry is the one before the call. *)
Theorem register_plugin_outcome (plugins : Registry) (protocol : string)
    (plugin : Backend) (force : bool) :
  match DataPersistencePlugins.register_plugin protocol plugin force plugins with
  | (Ok _, after) =>
      (exists q, PyDict.getitem after protocol = Some q
                 /\ DataPersistence.eqb q plugin = true)
      /\ DataPersistencePlugins.is_supported_protocol after protocol = true
  | (Raise e, after) =>
      force = false /\ after = plugins
      /\ exists p, PyDict.getitem plugins protocol = Some p
                   /\ DataPersistence.eqb p plugin = false
  end.
Proof.
  unfold DataPersistencePlugins.register_plugin,
    DataPersistencePlugins.is_supported_protocol, PyDict.contains.
  destruct (PyDict.getitem plugins protocol) as [p|] eqn:E.
  - destruct (DataPersistence.eqb p plugin) eqn:Eq.
    + rewrite E. eauto.
    + destruct force; simpl.
      * rewrite getitem_setitem_same. split; [|reflexivity].
        exists plugin. split; [reflexivity|apply eqb_refl].
      * eauto.
  - rewrite getitem_setitem_same. split; [|reflexivity].
    exists plugin. split; [reflexivity|apply eqb_refl].
Qed.

(** X5. [is_supported_protocol] is membership of the exact key. A path that
    starts with a supported protocol always resolves, so in particular every
    supported protocol, taken as a path, resolves to some back-end. *)
Theorem supported_protocol_resolves (plugins : Registry) (protocol path : string) :
  (DataPersistencePlugins.is_supported_protocol plugins protocol = true
   <-> In protocol (PyDict.keys plugins))
  /\ (DataPersistencePlugins.is_supported_protocol plugins protocol = true ->
      (startswith path protocol = true ->
       exists p, DataPersistencePlugins.find_plugin plugins path = Ok p)
      /\ exists p, DataPersistencePlugins.find_plugin plugins protocol = Ok p).
Proof.
  assert (Hmem : DataPersistencePlugins.is_supported_protocol plugins protocol = true
                 <-> In protocol (PyDict.keys plugins)).
  { unfold DataPersistencePlugins.is_supported_protocol, PyDict.contains.
    pose proof (getitem_none_not_in plugins protocol) as Hnone.
    destruct (PyDict.getitem plugins protocol); split; intros H; try reflexivity.
    - destruct (in_dec string_dec protocol (PyDict.keys plugins)) as [Hin|Hout];
        [assumption|]. apply Hnone in Hout. discriminate.
    - discriminate.
    - exfalso. now apply Hnone. }
  split; [exact Hmem|]. intros Hsup. apply Hmem in Hsup.
  assert (Hres : forall q, startswith q protocol = true ->
                 exists p, DataPersistencePlugins.find_plugin plugins q = Ok p).
  { intros q Hq. pose proof (find_in_first_match plugins q) as Hspec.
    unfold DataPersistencePlugins.find_plugin, PyDict.items.
    destruct (DataPersistencePlugins.find_in plugins q) as [p|e]; [eauto|].
    destruct Hspec as [_ Hnone]. unfold PyDict.keys in Hsup.
    apply in_map_iff in Hsup as ([k v] & Hk & Hin). simpl in Hk. subst k.
    rewrite (Hnone _ _ Hin) in Hq. discriminate. }
  split; [apply Hres|]. apply Hres, startswith_refl.
Qed.

(** X6. With the registry that the import of the module leaves, a path
    resolves exactly when [is_remote] says that it is not remote, and the
    back-end it resolves to is a disk back-end named ["local"]. *)
Theorem is_remote_iff_unresolved_after_import (o1 o2 : nat) (path : string) :
  (FileAccessProvider.is_remote path = false
   <-> exists p : Backend,
         DataPersistencePlugins.find_plugin (module_registry o1 o2) path = Ok p)
  /\ forall p : Backend,
       DataPersistencePlugins.find_plugin (module_registry o1 o2) path = Ok p ->
       DataPersistence.name p = "local"
       /\ (p = DiskPersistence.new o1 \/ p = DiskPersistence.new o2).
Proof.
  unfold FileAccessProvider.is_remote.
  change (@module_registry Remote o1 o2)
    with [("file://", @DiskPersistence.new Remote o1); ("/", DiskPersistence.new o2)].
  unfold DataPersistencePlugins.find_plugin, PyDict.items,
    DataPersistencePlugins.find_in.
  destruct (startswith path "file://") eqn:Ef, (startswith path "/") eqn:Es; simpl.
  - split; [split; eauto|]. intros p [= <-]. auto.
  - split; [split; eauto|]. intros p [= <-]. auto.
  - split; [split; eauto|]. intros p [= <-]. auto.
  - split; [|discriminate]. split; [discriminate|]. intros [p H]. discriminate.
Qed.
End RegistryMore.

Lemma register_plugin_new_protocol_witness :
  DataPersistencePlugins.register_plugin "mem://" (MemPersistence.new 3) false
    (module_registry 1 2)
  = (Ok tt, example_registry).
Proof.
  rewrite (register_plugin_new_protocol (module_registry 1 2) "mem://"
             (MemPersistence.new 3) false eq_refl).
  reflexivity.
Defined.

Lemma register_plugin_new_protocol_resolution_witness :
  DataPersistencePlugins.find_plugin example_registry "mem://bucket/key"
  = Ok (MemPersistence.new 3)
  /\ DataPersistencePlugins.find_plugin example_registry "/tmp/x"
     = Ok (DiskPersistence.new 2).
Proof.
  split.
  - exact (register_plugin_new_protocol_resolution (module_registry 1 2) "mem://"
             "mem://bucket/key" (MemPersistence.new 3) false eq_refl).
  - exact (register_plugin_new_protocol_resolution (module_registry 1 2) "mem://"
             "/tmp/x" (MemPersistence.new 3) false eq_refl).
Defined.

Lemma register_plugin_keeps_keys_distinct_witness :
  NoDup (PyDict.keys example_registry).
Proof.
  apply (register_plugin_keeps_keys_distinct (module_registry 1 2) "mem://"
           (MemPersistence.new 3) false).
  simpl. repeat constructor; simpl; intuition discriminate.
Defined.

Lemma supported_protocol_resolves_witness :
  exists p, DataPersistencePlugins.find_plugin example_registry "mem://" = Ok p.
Proof.
  destruct (supported_protocol_resolves example_registry "mem://" "mem://bucket/key")
    as [_ H].
  destruct (H eq_refl) as [_ Hself]. exact Hself.
Defined.

Lemma is_remote_iff_unresolved_after_import_witness :
  FileAccessProvider.is_remote "/tmp/x" = false
  /\ DataPersistence.name (@DiskPersistence.new unit 2) = "local".
Proof.
  destruct (@is_remote_iff_unresolved_after_import unit 1 2 "/tmp/x") as [Hiff Hname].
  split.
  - apply Hiff. exists (DiskPersistence.new 2). reflexivity.
  - apply (Hname (DiskPersistence.new 2)). reflexivity.
Defined.

(** * Further properties of the model of the disk *)

Lemma lookup_set_entry_same (name : string) (v : node) (es : list (string * node)) :
  lookup_entry name (set_entry name v es) = Some v.
Proof.
  induction es as [|[k m] es IH]; simpl.
  - now rewrite String.eqb_refl.
  - destruct (k =? name) eqn:E; simpl; rewrite E; [reflexivity|exact IH].
Qed.

Lemma lookup_set_entry_other (name other : string) (v : node) (es : list (string * node)) :
  other <> name -> lookup_entry other (set_entry name v es) = lookup_entry other es.
Proof.
  intros Hne. induction es as [|[k m] es IH]; simpl.
  - destruct (name =? other) eqn:E; [apply String.eqb_eq in E; congruence|reflexivity].
  - destruct (k =? name) eqn:E; simpl.
    + apply String.eqb_eq in E. subst k.
      destruct (name =? other) eqn:E2; [apply String.eqb_eq in E2; congruence|reflexivity].
    + now rewrite IH.
Qed.

Lemma get_app (r : node) (l1 l2 : list string) :
  get r (l1 ++ l2)
  = match get r l1 with Some n => get n l2 | None => None end.
Proof.
  revert r. induction l1 as [|c l1 IH]; intros r; simpl; [reflexivity|].
  destruct r as [data|es]; [reflexivity|].
  destruct (lookup_entry c es); [apply IH|reflexivity].
Qed.

Lemma get_snoc (r : node) (acc : list string) (c : string) :
  get r (acc ++ [c])
  = match get r acc with
    | Some (Dir es) => lookup_entry c es
    | _ => None
    end.
Proof.
  rewrite get_app. destruct (get r acc) as [[data|es]|]; simpl; try reflexivity.
  now destruct (lookup_entry c es).
Qed.

Lemma keeps_node_refl (n : node) : keeps_node n n.
Proof. destruct n; simpl; eauto. Qed.

Lemma keeps_node_trans (a b c : node) : keeps_node a b -> keeps_node b c -> keeps_node a c.
Proof.
  destruct a; simpl.
  - intros ->. simpl. auto.
  - intros [es ->]. simpl. auto.
Qed.

Lemma keeps_node_same_kind (n n' : node) : keeps_node n n' -> same_kind n n'.
Proof. destruct n; simpl; eauto. Qed.

Lemma extends_refl (r : node) : extends r r.
Proof. intros cs n H. exists n. split; [assumption|apply keeps_node_refl]. Qed.

Lemma extends_trans (a b c : node) : extends a b -> extends b c -> extends a c.
Proof.
  intros Hab Hbc cs n H.
  destruct (Hab cs n H) as (n1 & H1 & K1).
  destruct (Hbc cs n1 H1) as (n2 & H2 & K2).
  exists n2. split; [assumption|eapply keeps_node_trans; eassumption].
Qed.

Lemma extends_shape (r r' : node) : extends r r' -> shape_extends r r'.
Proof.
  intros H cs n Hget. destruct (H cs n Hget) as (n' & Hn' & K).
  exists n'. split; [assumption|now apply keeps_node_same_kind].
Qed.

(** What [update_dir] with [set_entry] leaves at the places that are not at
    or below the entry it sets. *)
Lemma update_dir_get_other (name : string) (v : node) :
  forall (par : list string) (r r' : node),
    update_dir r par (set_entry name v) = Some r' ->
    forall cs n,
      (forall rest, cs <> (par ++ name :: rest)%list) ->
      get r cs = Some n ->
      exists n', get r' cs = Some n' /\ keeps_node n n'.
Proof.
  induction par as [|a par IH]; intros r r' Hup cs n Hcs Hget.
  - destruct r as [data|es]; simpl in Hup; [discriminate|].
    injection Hup as <-. destruct cs as [|c rest].
    + simpl in *. injection Hget as <-. simpl. eauto.
    + simpl in *. rewrite lookup_set_entry_other.
      * exists n. split; [assumption|apply keeps_node_refl].
      * intros ->. now apply (Hcs rest).
  - destruct r as [data|es]; simpl in Hup; [discriminate|].
    destruct (lookup_entry a es) as [m|] eqn:Ea; [|discriminate].
    destruct (update_dir m par (set_entry name v)) as [m'|] eqn:Em; [|discriminate].
    injection Hup as <-. destruct cs as [|c rest].
    + simpl in *. injection Hget as <-. simpl. eauto.
    + simpl in *. destruct (string_dec c a) as [->|Hne].
      * rewrite lookup_set_entry_same. rewrite Ea in Hget.
        apply (IH m m' Em rest n); [|assumption].
        intros rest' ->. now apply (Hcs rest').
      * rewrite lookup_set_entry_other by assumption.
        exists n. split; [assumption|apply keeps_node_refl].
Qed.

(** What [update_dir] with [set_entry] leaves at the entry it sets. *)
Lemma update_dir_get_target (name : string) (v : node) :
  forall (par : list string) (r r' : node),
    update_dir r par (set_entry name v) = Some r' ->
    get r' (par ++ [name]) = Some v.
Proof.
  induction par as [|a par IH]; intros r r' Hup.
  - destruct r as [data|es]; simpl in Hup; [discriminate|].
    injection Hup as <-. simpl. now rewrite lookup_set_entry_same.
  - destruct r as [data|es]; simpl in Hup; [discriminate|].
    destruct (lookup_entry a es) as [m|] eqn:Ea; [|discriminate].
    destruct (update_dir m par (set_entry name v)) as [m'|] eqn:Em; [|discriminate].
    injection Hup as <-. simpl. rewrite lookup_set_entry_same. now apply (IH m).
Qed.

Lemma get_below_file (data : string) (rest : list string) (n : node) :
  get (File data) rest = Some n -> rest = [] /\ n = File data.
Proof. destruct rest; simpl; [intros [= <-]; auto|discriminate]. Qed.

Lemma update_dir_new_entry_extends (name : string) (v : node)
    (par : list string) (r r' : node) :
  get r (par ++ [name]) = None ->
  update_dir r par (set_entry name v) = Some r' ->
  extends r r'.
Proof.
  intros Hnew Hup cs n Hget.
  apply (update_dir_get_other name v par r r' Hup cs n); [|assumption].
  intros rest ->.
  change (name :: rest) with ([name] ++ rest)%list in Hget.
  rewrite app_assoc, get_app, Hnew in Hget. discriminate.
Qed.

Lemma update_dir_file_shape_extends (name data : string)
    (par : list string) (r r' : node) :
  (forall es, get r (par ++ [name]) <> Some (Dir es)) ->
  update_dir r par (set_entry name (File data)) = Some r' ->
  shape_extends r r'.
Proof.
  intros Hfile Hup cs n Hget.
  destruct (list_eq_dec string_dec cs (par ++ [name])) as [->|Hne].
  - exists (File data). split; [now apply (update_dir_get_target name _ par r)|].
    destruct n as [d0|es]; simpl; [eauto|]. now destruct (Hfile es).
  - destruct (update_dir_get_other name _ par r r' Hup cs n) as (n' & Hn' & K);
      [|assumption|].
    + intros rest ->.
      change (name :: rest) with ([name] ++ rest)%list in Hget.
      rewrite app_assoc, get_app in Hget.
      destruct (get r (par ++ [name])) as [[d0|es]|] eqn:E; [| |discriminate].
      * apply get_below_file in Hget as [-> _]. apply Hne. reflexivity.
      * now destruct (Hfile es).
    + exists n'. split; [assumption|now apply keeps_node_same_kind].
Qed.

Lemma resolve_step_shape (r r' : node) (acc acc' : list string) (c : string) :
  shape_extends r r' ->
  resolve_step r acc c = inr acc' -> resolve_step r' acc c = inr acc'.
Proof.
  intros Hshape. unfold resolve_step.
  destruct (get r acc) as [[data|es]|] eqn:Eacc; try discriminate.
  destruct (Hshape acc _ Eacc) as (n' & Hn' & [es' ->]). rewrite Hn'.
  destruct ((c =? "") || (c =? ".")); [auto|].
  destruct (c =? ".."); [auto|].
  destruct (lookup_entry c es) as [m|] eqn:Ec; [|discriminate].
  assert (Hold : get r (acc ++ [c]) = Some m) by (now rewrite get_snoc, Eacc).
  destruct (Hshape _ _ Hold) as (m' & Hm' & _).
  rewrite get_snoc, Hn' in Hm'. now rewrite Hm'.
Qed.

Lemma resolve_from_shape (r r' : node) (cs : list string) :
  shape_extends r r' ->
  forall acc res,
    resolve_from r acc cs = inr res -> resolve_from r' acc cs = inr res.
Proof.
  intros Hshape. induction cs as [|c cs IH]; intros acc res; simpl; [auto|].
  destruct (resolve_step r acc c) as [e|acc'] eqn:E; [discriminate|].
  rewrite (resolve_step_shape r r' acc acc' c Hshape E). apply IH.
Qed.

Lemma resolve_from_app (r : node) (l1 l2 : list string) (acc : list string) :
  resolve_from r acc (l1 ++ l2)
  = match resolve_from r acc l1 with
    | inr acc' => resolve_from r acc' l2
    | inl e => inl e
    end.
Proof.
  revert acc. induction l1 as [|c l1 IH]; intros acc; simpl; [reflexivity|].
  destruct (resolve_step r acc c); [reflexivity|apply IH].
Qed.

Lemma split_on_not_nil (c : ascii) (s : string) : split_on c s <> [].
Proof.
  induction s as [|a s IH]; simpl; [discriminate|].
  destruct (Ascii.eqb a c); [discriminate|].
  destruct (split_on c s); [contradiction|discriminate].
Qed.

(** A file that a path names is still named by it, with its content, on a
    disk whose tree extends the old one. *)
Lemma stat_file_extends (d : Disk) (r' : node) (j : list fs_call)
    (path data : string) :
  extends (root d) r' ->
  stat d path = inr (File data) ->
  stat (mkDisk r' (cwd d) j) path = inr (File data).
Proof.
  intros Hext. unfold stat, namei, start_dir. simpl.
  destruct (path =? ""); [discriminate|].
  destruct (resolve_from (root d) _ _) as [e|cs] eqn:E; [discriminate|].
  rewrite (resolve_from_shape _ r' _ (extends_shape _ _ Hext) _ _ E).
  destruct (get (root d) cs) as [n|] eqn:En; [|discriminate].
  intros [= ->]. destruct (Hext _ _ En) as (n' & Hn' & K). simpl in K. subst n'.
  now rewrite Hn'.
Qed.

(** A file that was written is read back at the same path. *)
Lemma write_file_then_stat (path data : string) (d d' : Disk) :
  Lib.write_file path data d = (Ok tt, d') ->
  stat d' path = inr (File data)
  /\ cwd d' = cwd d /\ journal d' = journal d /\ shape_extends (root d) (root d').
Proof.
  unfold Lib.write_file, namei_parent.
  destruct (path =? "") eqn:Ep; [discriminate|].
  destruct (resolve_from (root d) (start_dir d path)
              (removelast (split_on PosixPath.sep path))) as [e|par] eqn:Epar;
    [discriminate|].
  destruct (get (root d) par) as [[d0|es]|] eqn:Eget; try discriminate.
  set (name := last (split_on PosixPath.sep path) "").
  destruct (Lib.is_dots name) eqn:Edots; [discriminate|].
  intros Hres.
  assert (Hnodir : forall es', get (root d) (par ++ [name]) <> Some (Dir es')).
  { intros es' H. rewrite H in Hres. discriminate. }
  destruct (update_dir (root d) par (set_entry name (File data))) as [r|] eqn:Eup.
  2:{ destruct (get (root d) (par ++ [name])) as [[?|?]|]; discriminate. }
  assert (Hd' : d' = mkDisk r (cwd d) (journal d)).
  { destruct (get (root d) (par ++ [name])) as [[?|?]|]; congruence. }
  subst d'. clear Hres. simpl.
  pose proof (update_dir_file_shape_extends name data par _ _ Hnodir Eup) as Hshape.
  repeat split; [|exact Hshape].
  unfold stat, namei, start_dir. cbn [root cwd]. rewrite Ep.
  rewrite (app_removelast_last "" (split_on_not_nil PosixPath.sep path)) at 1.
  fold name. rewrite resolve_from_app.
  unfold start_dir in Epar.
  rewrite (resolve_from_shape _ r _ Hshape _ _ Epar). cbn [resolve_from].
  unfold resolve_step.
  destruct (Hshape _ _ Eget) as (n' & Hn' & [es' ->]). rewrite Hn'.
  unfold Lib.is_dots in Edots.
  apply orb_false_iff in Edots as [Edots E2]. rewrite Edots, E2.
  pose proof (update_dir_get_target name (File data) par _ _ Eup) as Htarget.
  pose proof Htarget as Hlook. rewrite get_snoc, Hn' in Hlook. rewrite Hlook.
  now rewrite Htarget.
Qed.

(** [stat] does not look at the journal. *)
Lemma stat_journal (r : node) (c : list string) (j j' : list fs_call) (path : string) :
  stat (mkDisk r c j) path = stat (mkDisk r c j') path.
Proof. reflexivity. Qed.

(** When [shutil.copyfile] returns, the source was a file and the destination
    is a file with the same content. *)
Lemma shutil_copyfile_outcome (src dst : string) (d d' : Disk) :
  Lib.shutil_copyfile src dst d = (Ok tt, d') ->
  exists data,
    stat d src = inr (File data) /\ stat d' dst = inr (File data)
    /\ cwd d' = cwd d /\ shape_extends (root d) (root d').
Proof.
  unfold Lib.shutil_copyfile, bind, Lib.log, modify, gets. simpl.
  destruct (Lib.samefile _ src dst); [discriminate|].
  unfold Lib.read_file at 1.
  rewrite (stat_journal (root d) (cwd d) _ (journal d)).
  replace (mkDisk (root d) (cwd d) (journal d)) with d by now destruct d.
  destruct (stat d src) as [e|[data|es]] eqn:Esrc; try discriminate.
  intros Hwrite. apply write_file_then_stat in Hwrite as (Hstat & Hcwd & _ & Hshape).
  exists data. auto.
Qed.

(** Creating directories keeps what is on the disk. *)
Lemma mkdirs_from_extends (cs : list string) :
  forall (r : node) (acc : list string) (made : bool),
    extends r (fst (Lib.mkdirs_from r acc cs made)).
Proof.
  induction cs as [|c cs IH]; intros r acc made; simpl; [apply extends_refl|].
  destruct (get r acc) as [[data|es]|] eqn:Eacc; try apply extends_refl.
  destruct ((c =? "") || (c =? ".")); [apply IH|].
  destruct (c =? ".."); [apply IH|].
  destruct (lookup_entry c es) as [m|] eqn:Ec; [apply IH|].
  destruct (update_dir r acc (set_entry c (Dir []))) as [r'|] eqn:Eup;
    [|apply extends_refl].
  apply extends_trans with (b := r'); [|apply IH].
  apply (update_dir_new_entry_extends c (Dir []) acc); [|assumption].
  now rewrite get_snoc, Eacc.
Qed.

Lemma keeps_files_ret {A} (a : A) : keeps_files (ret a).
Proof. intros d. split; [reflexivity|apply extends_refl]. Qed.

Lemma keeps_files_raise {A} (e : PyExc) : keeps_files (@raise Disk A e).
Proof. intros d. split; [reflexivity|apply extends_refl]. Qed.

Lemma keeps_files_gets {A} (f : Disk -> A) : keeps_files (gets f).
Proof. intros d. split; [reflexivity|apply extends_refl]. Qed.

Lemma keeps_files_log (c : fs_call) : keeps_files (Lib.log c).
Proof. intros d. split; [reflexivity|apply extends_refl]. Qed.

Lemma keeps_files_bind {A B} (m : M Disk A) (k : A -> M Disk B) :
  keeps_files m -> (forall a, keeps_files (k a)) -> keeps_files (bind m k).
Proof.
  intros Hm Hk d. unfold bind. destruct (Hm d) as [Hc He].
  destruct (m d) as [[a|e] d1]; simpl in *; [|auto].
  destruct (Hk a d1) as [Hc' He']. split; [congruence|].
  eapply extends_trans; eassumption.
Qed.

Lemma keeps_files_try_except {A} (m : M Disk A) (h : PyExc -> M Disk A) :
  keeps_files m -> (forall e, keeps_files (h e)) -> keeps_files (try_except m h).
Proof.
  intros Hm Hh d. unfold try_except. destruct (Hm d) as [Hc He].
  destruct (m d) as [[a|e] d1]; simpl in *; [auto|].
  destruct (Hh e d1) as [Hc' He']. split; [congruence|].
  eapply extends_trans; eassumption.
Qed.

Lemma keeps_files_mkdir_p (path : string) (exist_ok : bool) :
  keeps_files (Lib.mkdir_p path exist_ok).
Proof.
  intros d. unfold Lib.mkdir_p.
  destruct (path =? ""); [split; [reflexivity|apply extends_refl]|].
  pose proof (mkdirs_from_extends (split_on PosixPath.sep path) (root d)
                (start_dir d path) false) as Hext.
  destruct (Lib.mkdirs_from _ _ _ _) as [r [e|[|]]]; simpl in *; auto.
  destruct (stat _ path) as [e|[data|es]]; simpl; auto.
  destruct exist_ok; simpl; auto.
Qed.

Lemma keeps_files_make_local_path (path : string) :
  keeps_files (DiskPersistence._make_local_path path).
Proof.
  unfold DiskPersistence._make_local_path.
  apply keeps_files_bind; [apply keeps_files_gets|]. intros ex.
  destruct (negb ex); [|apply keeps_files_ret].
  apply keeps_files_try_except.
  - apply keeps_files_bind; [apply keeps_files_log|]. intros _.
    apply keeps_files_mkdir_p.
  - intros e. destruct (DiskPersistence.is_OSError e); [|apply keeps_files_raise].
    apply keeps_files_bind; [apply keeps_files_gets|]. intros isd.
    destruct (negb isd); [apply keeps_files_raise|apply keeps_files_ret].
Qed.

Lemma keeps_files_stat {A} (m : M Disk A) (d : Disk) (path data : string) :
  keeps_files m ->
  stat d path = inr (File data) ->
  stat (snd (m d)) path = inr (File data).
Proof.
  intros Hm Hstat. destruct (Hm d) as [Hc He].
  pose proof (stat_file_extends d _ (journal (snd (m d))) path data He Hstat) as H.
  rewrite <- Hc in H. now destruct (snd (m d)).
Qed.

(** When [upload] returns, the destination holds the content that the source
    had, and the source is still a file. *)
Lemma upload_copies (from_path to_path data : string) (d d' : Disk) :
  stat d (DiskPersistence.strip_file_header from_path) = inr (File data) ->
  DiskPersistence.upload from_path to_path d = (Ok tt, d') ->
  stat d' (DiskPersistence.strip_file_header to_path) = inr (File data)
  /\ exists kept,
       stat d' (DiskPersistence.strip_file_header from_path) = inr (File kept).
Proof.
  intros Hsrc. unfold DiskPersistence.upload, bind.
  pose proof (keeps_files_stat _ d _ _ (keeps_files_make_local_path
                (PosixPath.dirname (DiskPersistence.strip_file_header to_path))) Hsrc)
    as Hkept.
  destruct (DiskPersistence._make_local_path _ d) as [[[]|e] d0]; [|discriminate].
  simpl in Hkept. intros Hcopy.
  apply shutil_copyfile_outcome in Hcopy as (data' & Hsrc' & Hdst & Hcwd & Hshape).
  assert (data' = data) as -> by congruence.
  split; [exact Hdst|].
  unfold stat, namei in *. unfold start_dir in *. rewrite Hcwd.
  destruct (DiskPersistence.strip_file_header from_path =? ""); [discriminate|].
  destruct (resolve_from (root d0) _ _) as [e|cs] eqn:E; [discriminate|].
  rewrite (resolve_from_shape _ _ _ Hshape _ _ E).
  destruct (get (root d0) cs) as [n|] eqn:En; [|discriminate].
  injection Hsrc' as ->.
  destruct (Hshape _ _ En) as (n' & Hn' & [kept ->]). rewrite Hn'. eauto.
Qed.

(** X7. When [upload] returns, the destination holds the content that the
    source had before the call, [exists] reports the destination, and the
    source is still a file: neither the directories that [upload] created nor
    the copy displaced it. *)
Theorem upload_outcome (from_path to_path data : string) (d d' : Disk) :
  stat d (DiskPersistence.strip_file_header from_path) = inr (File data) ->
  DiskPersistence.upload from_path to_path d = (Ok tt, d') ->
  stat d' (DiskPersistence.strip_file_header to_path) = inr (File data)
  /\ DiskPersistence.exists_ to_path d' = (Ok true, d')
  /\ exists kept,
       stat d' (DiskPersistence.strip_file_header from_path) = inr (File kept).
Proof.
  intros Hsrc Hup.
  destruct (upload_copies _ _ _ _ _ Hsrc Hup) as [Hdst Hkept].
  split; [exact Hdst|]. split; [|exact Hkept].
  unfold DiskPersistence.exists_, Lib.os_path_exists, gets. now rewrite Hdst.
Qed.

Lemma upload_outcome_witness :
  exists d',
    DiskPersistence.upload "/d/a.txt" "file:///new/dir/copy.txt" example_disk = (Ok tt, d')
    /\ stat d' "/new/dir/copy.txt" = inr (File "A").
Proof.
  eexists. split; [vm_compute; reflexivity|].
  eapply (upload_outcome "/d/a.txt" "file:///new/dir/copy.txt" "A" example_disk).
  - reflexivity.
  - vm_compute. reflexivity.
Defined.

(** X8. Round trip on the disk back-end: after [upload] of a file to a
    destination and [download] of that destination to a third path, the
    third path holds the content that the file had at the start. *)
Theorem upload_download_round_trip (local_a remote_x local_b data : string)
    (d d1 d2 : Disk) :
  stat d (DiskPersistence.strip_file_header local_a) = inr (File data) ->
  DiskPersistence.upload local_a remote_x d = (Ok tt, d1) ->
  DiskPersistence.download remote_x local_b d1 = (Ok tt, d2) ->
  stat d2 (DiskPersistence.strip_file_header local_b) = inr (File data).
Proof.
  intros Hsrc Hup Hdown.
  destruct (upload_copies _ _ _ _ _ Hsrc Hup) as [Hx _].
  unfold DiskPersistence.download in Hdown.
  apply shutil_copyfile_outcome in Hdown as (data' & Hx' & Hb & _ & _).
  congruence.
Qed.

Lemma upload_download_round_trip_witness :
  exists d1 d2,
    DiskPersistence.upload "/d/a.txt" "/store/a" example_disk = (Ok tt, d1)
    /\ DiskPersistence.download "file:///store/a" "/tmp/b.txt" d1 = (Ok tt, d2)
    /\ stat d2 "/tmp/b.txt" = inr (File "A").
Proof.
  eexists. eexists. split; [vm_compute; reflexivity|]. split; [vm_compute; reflexivity|].
  eapply (upload_download_round_trip "/d/a.txt" "/store/a" "/tmp/b.txt" "A" example_disk).
  - reflexivity.
  - vm_compute. reflexivity.
  - vm_compute. reflexivity.
Defined.

Lemma namei_fails_with_parent (d : Disk) (path : string) (e : errno) :
  namei_parent d path = inl e -> exists e', namei d path = inl e'.
Proof.
  unfold namei_parent, namei. destruct (path =? ""); [eauto|].
  intros Hpar.
  destruct (resolve_from (root d) (start_dir d path) (split_on PosixPath.sep path))
    as [e'|res] eqn:E; [eauto|].
  exfalso.
  rewrite (app_removelast_last "" (split_on_not_nil PosixPath.sep path)) in E.
  rewrite resolve_from_app in E.
  destruct (resolve_from (root d) (start_dir d path)
              (removelast (split_on PosixPath.sep path))) as [e0|par]; [discriminate|].
  cbn [resolve_from] in E. unfold resolve_step in E.
  destruct (get (root d) par) as [[data|es]|]; discriminate.
Qed.

(** X9. [download] does not create the directory of its destination: when
    the source is a file and the parent of the destination cannot be resolved,
    it raises the [OSError] of the destination and the tree is as before. *)
Theorem download_needs_destination_parent (from_path to_path data : string)
    (e : errno) (d : Disk) :
  stat d (DiskPersistence.strip_file_header from_path) = inr (File data) ->
  namei_parent d (DiskPersistence.strip_file_header to_path) = inl e ->
  DiskPersistence.download from_path to_path d
  = (Raise (Lib.oserror e (DiskPersistence.strip_file_header to_path)),
     mkDisk (root d) (cwd d)
       (journal d ++ [Call_copyfile (DiskPersistence.strip_file_header from_path)
                        (DiskPersistence.strip_file_header to_path)])).
Proof.
  intros Hsrc Hpar. unfold DiskPersistence.download, Lib.shutil_copyfile, bind,
    Lib.log, modify, gets. cbn [fst snd].
  set (d1 := mkDisk (root d) (cwd d) _).
  assert (Hsame : Lib.samefile d1 (DiskPersistence.strip_file_header from_path)
                    (DiskPersistence.strip_file_header to_path) = false).
  { unfold Lib.samefile.
    destruct (namei_fails_with_parent d _ _ Hpar) as [e' He'].
    change (namei d1 (DiskPersistence.strip_file_header to_path))
      with (namei d (DiskPersistence.strip_file_header to_path)).
    rewrite He'. now destruct (namei d1 _). }
  rewrite Hsame. unfold Lib.read_file.
  change (stat d1 (DiskPersistence.strip_file_header from_path))
    with (stat d (DiskPersistence.strip_file_header from_path)).
  rewrite Hsrc. unfold Lib.write_file.
  change (namei_parent d1 (DiskPersistence.strip_file_header to_path))
    with (namei_parent d (DiskPersistence.strip_file_header to_path)).
  now rewrite Hpar.
Qed.

Lemma download_needs_destination_parent_witness :
  DiskPersistence.download "/d/a.txt" "/new/dir/copy.txt" example_disk
  = (Raise (Exc "FileNotFoundError"
              "[Errno 2] No such file or directory: '/new/dir/copy.txt'"),
     mkDisk example_tree [] [Call_copyfile "/d/a.txt" "/new/dir/copy.txt"]).
Proof.
  exact (download_needs_destination_parent "/d/a.txt" "/new/dir/copy.txt" "A" ENOENT
           example_disk eq_refl eq_refl).
Defined.

Lemma split_on_no_sep (c : ascii) (s : string) :
  forallb_string (fun a => negb (Ascii.eqb a c)) s = true -> split_on c s = [s].
Proof.
  induction s as [|a s IH]; simpl; [reflexivity|].
  intros H. apply andb_true_iff in H as [Ha Hs].
  apply negb_true_iff in Ha. rewrite Ha, (IH Hs). reflexivity.
Qed.

Lemma dirname_no_sep (s : string) :
  forallb_string (fun a => negb (Ascii.eqb a PosixPath.sep)) s = true ->
  PosixPath.dirname s = "".
Proof.
  intros H. unfold PosixPath.dirname, PosixPath.split.
  rewrite (split_on_no_sep _ _ H). simpl. rewrite Nat.sub_diag.
  now destruct s.
Qed.

(** X10. [upload] to a destination that has no slash in it (after the
    ["file://"] is stripped) always fails: the directory part of the
    destination is the empty string, [makedirs] raises [FileNotFoundError] on
    it, and nothing is copied. *)
Theorem upload_to_bare_file_name_raises (from_path to_path : string) (d : Disk) :
  forallb_string (fun a => negb (Ascii.eqb a PosixPath.sep))
    (DiskPersistence.strip_file_header to_path) = true ->
  DiskPersistence.upload from_path to_path d
  = (Raise (Exc "FileNotFoundError" "[Errno 2] No such file or directory: ''"),
     mkDisk (root d) (cwd d) (journal d ++ [Call_makedirs ""])).
Proof.
  intros H. unfold DiskPersistence.upload. rewrite (dirname_no_sep _ H).
  reflexivity.
Qed.

Lemma upload_to_bare_file_name_raises_witness :
  fst (DiskPersistence.upload "/d/a.txt" "file://copy.txt" example_disk)
  = Raise (Exc "FileNotFoundError" "[Errno 2] No such file or directory: ''").
Proof.
  now rewrite (upload_to_bare_file_name_raises "/d/a.txt" "file://copy.txt"
                 example_disk eq_refl).
Defined.

(** X11. On a path that names no directory the two modes of [listdir]
    differ: the listing that is not recursive raises the [OSError] of
    [os.listdir] ([NotADirectoryError] on a file, otherwise the error of the
    lookup), the recursive one yields nothing and raises nothing. Neither
    changes the disk. *)
Theorem listdir_without_directory (path : string) (d : Disk) :
  (forall es, stat d (DiskPersistence.strip_file_header path) <> inr (Dir es)) ->
  DiskPersistence.listdir path true d = (Ok [], d)
  /\ DiskPersistence.listdir path false d
     = (Raise (Lib.oserror
                 match stat d (DiskPersistence.strip_file_header path) with
                 | inl e => e
                 | inr _ => ENOTDIR
                 end (DiskPersistence.strip_file_header path)), d).
Proof.
  intros Hnodir.
  unfold DiskPersistence.listdir, bind, Lib.os_walk, Lib.os_listdir, gets. simpl.
  destruct (stat d (DiskPersistence.strip_file_header path)) as [e|[data|es]];
    [split; reflexivity|split; reflexivity|].
  now destruct (Hnodir es).
Qed.

Lemma listdir_without_directory_witness :
  DiskPersistence.listdir "/gone" true example_disk = (Ok [], example_disk)
  /\ fst (DiskPersistence.listdir "/d/a.txt" false example_disk)
     = Raise (Exc "NotADirectoryError" "[Errno 20] Not a directory: '/d/a.txt'").
Proof.
  destruct (listdir_without_directory "/gone" example_disk) as [Hrec _];
    [intros es; discriminate|].
  destruct (listdir_without_directory "/d/a.txt" example_disk) as [_ Hflat];
    [intros es; discriminate|].
  split; [exact Hrec|]. now rewrite Hflat.
Defined.

(** X12. [strip_file_header] removes the ["file://"] that a path starts with
    and nothing else: the result is the path without its first seven
    characters when it starts with ["file://"], and the path itself
    otherwise. An occurrence further inside the path always stays, and of two
    leading ones only the first is removed. *)
Theorem strip_file_header_leading_only (path : string) :
  DiskPersistence.strip_file_header path
  = (if startswith path "file://" then drop 7 path else path)
  /\ DiskPersistence.strip_file_header ("file://" ++ path) = path
  /\ String.length (DiskPersistence.strip_file_header path)
     = (if startswith path "file://" then String.length path - 7
        else String.length path).
Proof.
  assert (Hdrop : DiskPersistence.strip_file_header path
                  = (if startswith path "file://" then drop 7 path else path)).
  { destruct (startswith path "file://") eqn:E.
    - now apply strip_file_header_drops_seven.
    - now apply strip_file_header_bare. }
  split; [exact Hdrop|]. split; [apply strip_file_header_prefixed|].
  rewrite Hdrop. destruct (startswith path "file://") eqn:E; [|reflexivity].
  apply startswith_spec in E as [rest ->]. simpl. now rewrite Nat.sub_0_r.
Qed.

Lemma endswith_char_app (a b : string) (c : ascii) :
  b <> "" -> endswith_char (a ++ b) c = endswith_char b c.
Proof.
  intros Hb. induction a as [|x a IH]; simpl; [reflexivity|].
  rewrite IH. destruct (a ++ b) eqn:E; [|reflexivity].
  destruct a; simpl in E; [contradiction|discriminate].
Qed.

Lemma join2_behind_protocol (s b : string) :
  startswith b "/" = false ->
  PosixPath.join2 ("file://" ++ s) b = "file://" ++ PosixPath.join2 s b.
Proof.
  intros Hb. unfold PosixPath.join2. rewrite Hb.
  destruct s as [|x s]; [reflexivity|].
  rewrite endswith_char_app by discriminate.
  remember (endswith_char (String x s) PosixPath.sep) as t eqn:Et. clear Et.
  destruct t; reflexivity.
Qed.

Lemma join_behind_protocol (rest : list string) :
  forallb (fun b => negb (startswith b "/")) rest = true ->
  forall s, PosixPath.join ("file://" ++ s) rest = "file://" ++ PosixPath.join s rest.
Proof.
  unfold PosixPath.join. induction rest as [|b rest IH]; intros Hrel s;
    cbn [fold_left]; [reflexivity|].
  cbn [forallb] in Hrel. apply andb_true_iff in Hrel as [Hb Hrest].
  apply negb_true_iff in Hb.
  rewrite join2_behind_protocol by assumption. now apply IH.
Qed.

(** X13. [construct_path] of the disk back-end with [add_protocol]: when no
    segment starts with a slash the result is ["file://"] followed by the
    path built without the protocol; when the first segment starts with a
    slash the protocol is lost and the result is the path built without it.
    Without any segment, the call without the protocol raises. *)
Theorem construct_path_protocol (a : string) (rest : list string) :
  (forallb (fun b => negb (startswith b "/")) (a :: rest) = true ->
   DiskPersistence.construct_path true (a :: rest)
   = Ok ("file://" ++ PosixPath.join a rest))
  /\ (startswith a "/" = true ->
      DiskPersistence.construct_path true (a :: rest)
      = DiskPersistence.construct_path false (a :: rest))
  /\ DiskPersistence.construct_path false (a :: rest) = Ok (PosixPath.join a rest)
  /\ DiskPersistence.construct_path true [] = Ok "file://"
  /\ exists e, DiskPersistence.construct_path false [] = Raise e.
Proof.
  split; [|split; [|split; [reflexivity|split; [reflexivity|eexists; reflexivity]]]].
  - intros Hrel. unfold DiskPersistence.construct_path, DiskPersistence.PROTOCOL.
    change "file://" with ("file://" ++ "") at 1.
    rewrite (join_behind_protocol (a :: rest) Hrel). f_equal.
    unfold PosixPath.join. cbn [fold_left]. f_equal.
    unfold PosixPath.join2. now destruct (startswith a "/").
  - intros Ha. unfold DiskPersistence.construct_path, DiskPersistence.PROTOCOL,
      PosixPath.join. simpl. unfold PosixPath.join2 at 2. now rewrite Ha.
Qed.

Lemma construct_path_protocol_witness :
  DiskPersistence.construct_path true ["bucket"; "key"] = Ok "file://bucket/key"
  /\ DiskPersistence.construct_path true ["/tmp"; "key"] = Ok "/tmp/key".
Proof.
  destruct (construct_path_protocol "bucket" ["key"]) as [Hrel _].
  destruct (construct_path_protocol "/tmp" ["key"]) as (_ & Habs & _).
  split; [exact (Hrel eq_refl)|exact (Habs eq_refl)].
Defined.

Lemma extends_dir (r r' : node) (acc : list string) (es : list (string * node)) :
  extends r r' -> get r acc = Some (Dir es) -> exists es', get r' acc = Some (Dir es').
Proof.
  intros Hext Hget. destruct (Hext _ _ Hget) as (n' & Hn' & [es' ->]). eauto.
Qed.

Lemma extends_entry (r r' : node) (acc : list string) (c : string) (m : node) :
  extends r r' -> get r (acc ++ [c]) = Some m ->
  exists es' m', get r' acc = Some (Dir es') /\ lookup_entry c es' = Some m'.
Proof.
  intros Hext Hget. destruct (Hext _ _ Hget) as (m' & Hm' & _).
  rewrite get_snoc in Hm'.
  destruct (get r' acc) as [[data|es']|]; try discriminate. eauto.
Qed.

(** When [mkdirs_from] reports that it created the last component, the whole
    list of components resolves in the new tree, to a directory. *)
Lemma mkdirs_from_resolves (cs : list string) :
  forall (r : node) (acc : list string) (made : bool) (r' : node),
    (made = true -> exists es, get r acc = Some (Dir es)) ->
    Lib.mkdirs_from r acc cs made = (r', inr true) ->
    exists acc' es, resolve_from r' acc cs = inr acc' /\ get r' acc' = Some (Dir es).
Proof.
  induction cs as [|c cs IH]; intros r acc made r' Hmade; simpl.
  - intros [= <- ->]. destruct (Hmade eq_refl) as [es Hes]. eauto.
  - destruct (get r acc) as [[data|es]|] eqn:Eacc; try discriminate.
    unfold resolve_step.
    destruct ((c =? "") || (c =? ".")) eqn:Edot.
    { intros Hrec. pose proof (mkdirs_from_extends cs r acc made) as Hext.
      rewrite Hrec in Hext. simpl in Hext.
      destruct (extends_dir _ _ _ _ Hext Eacc) as [es' Hes']. rewrite Hes'.
      apply (IH r acc made r'); [eauto|assumption]. }
    destruct (c =? "..") eqn:Eup.
    { intros Hrec. pose proof (mkdirs_from_extends cs r (removelast acc) false) as Hext.
      rewrite Hrec in Hext. simpl in Hext.
      destruct (extends_dir _ _ _ _ Hext Eacc) as [es' Hes']. rewrite Hes'.
      apply (IH r (removelast acc) false r'); [discriminate|assumption]. }
    destruct (lookup_entry c es) as [m|] eqn:Ec.
    { intros Hrec. pose proof (mkdirs_from_extends cs r (acc ++ [c]) false) as Hext.
      rewrite Hrec in Hext. simpl in Hext.
      assert (Hold : get r (acc ++ [c]) = Some m) by (now rewrite get_snoc, Eacc).
      destruct (extends_entry _ _ _ _ _ Hext Hold) as (es' & m' & Hes' & Hm').
      rewrite Hes', Hm'.
      apply (IH r (acc ++ [c])%list false r'); [discriminate|assumption]. }
    destruct (update_dir r acc (set_entry c (Dir []))) as [r1|] eqn:Eupd; [|discriminate].
    intros Hrec. pose proof (mkdirs_from_extends cs r1 (acc ++ [c]) true) as Hext.
    rewrite Hrec in Hext. simpl in Hext.
    pose proof (update_dir_get_target c (Dir []) acc r r1 Eupd) as Hnew.
    destruct (extends_entry _ _ _ _ _ Hext Hnew) as (es' & m' & Hes' & Hm').
    rewrite Hes', Hm'.
    apply (IH r1 (acc ++ [c])%list true r'); [eauto|assumption].
Qed.

(** When [mkdir_p] returns, the path names a directory. *)
Lemma mkdir_p_postcondition (path : string) (exist_ok : bool) (d d' : Disk) :
  Lib.mkdir_p path exist_ok d = (Ok tt, d') ->
  exists es, stat d' path = inr (Dir es).
Proof.
  unfold Lib.mkdir_p. destruct (path =? "") eqn:Ep; [discriminate|].
  destruct (Lib.mkdirs_from (root d) (start_dir d path)
              (split_on PosixPath.sep path) false) as [r [e|[|]]] eqn:Emk;
    [discriminate| |].
  - intros [= <-].
    destruct (mkdirs_from_resolves _ _ _ _ _ (fun H => False_ind _ (diff_false_true H)) Emk)
      as (acc' & es & Hres & Hget).
    exists es. unfold stat, namei, start_dir in *. cbn [root cwd]. rewrite Ep.
    now rewrite Hres, Hget.
  - destruct (stat _ path) as [e|[data|es]] eqn:Es; try discriminate.
    destruct exist_ok; [|discriminate]. intros [= <-]. eauto.
Qed.

(** X14. When [_make_local_path] returns, the path exists and every file that
    was on the disk is still there with its content; if the path did not exist
    before the call, it is now a directory. *)
Theorem make_local_path_postcondition (path : string) (d d' : Disk) :
  DiskPersistence._make_local_path path d = (Ok tt, d') ->
  Lib.os_path_exists path d' = (Ok true, d')
  /\ (Lib.os_path_exists path d = (Ok false, d) ->
      Lib.os_path_isdir path d' = (Ok true, d'))
  /\ forall file data, stat d file = inr (File data) -> stat d' file = inr (File data).
Proof.
  intros Hrun.
  assert (Hfiles : forall file data,
             stat d file = inr (File data) -> stat d' file = inr (File data)).
  { intros file data Hstat.
    pose proof (keeps_files_stat _ d file data (keeps_files_make_local_path path) Hstat)
      as H. now rewrite Hrun in H. }
  revert Hrun. unfold DiskPersistence._make_local_path, bind, Lib.os_path_exists,
    Lib.os_path_isdir, gets. cbn [fst snd].
  destruct (stat d path) as [e|n] eqn:Es; cbn [negb].
  - unfold try_except, Lib.os_makedirs, bind, Lib.log, modify.
    destruct (Lib.mkdir_p path false _) as [[[]|ex] d1] eqn:Emk.
    + intros [= <-]. apply mkdir_p_postcondition in Emk as [es Hes].
      rewrite Hes. auto.
    + destruct (DiskPersistence.is_OSError ex); [|discriminate].
      destruct (stat d1 path) as [e1|[data|es]] eqn:Es1; cbn [negb]; try discriminate.
      intros [= <-]. rewrite Es1. auto.
  - intros [= <-]. rewrite Es. repeat split; [discriminate|exact Hfiles].
Qed.

Lemma make_local_path_postcondition_witness :
  exists d',
    DiskPersistence._make_local_path "/new/dir" example_disk = (Ok tt, d')
    /\ Lib.os_path_isdir "/new/dir" d' = (Ok true, d')
    /\ stat d' "/d/sub/b.txt" = inr (File "B").
Proof.
  eexists. split; [vm_compute; reflexivity|].
  edestruct (make_local_path_postcondition "/new/dir" example_disk) as (_ & Hdir & Hkeep).
  - vm_compute. reflexivity.
  - split; [apply Hdir; reflexivity|apply Hkeep; reflexivity].
Defined.

Lemma on_disk_outcome {Remote A} (m : M Disk A) (w w' : World Remote) (r : result A) :
  on_disk m w = (r, w') <-> m (fst w) = (r, fst w') /\ snd w' = snd w.
Proof.
  unfold on_disk. destruct (m (fst w)) as [r0 d0]. destruct w' as [d1 x1]. simpl.
  split.
  - intros [= -> -> ->]. auto.
  - intros [[= -> ->] ->]. reflexivity.
Qed.

(** X15. When the constructor of the client returns, the sandbox directory
    that the client holds, the [pathlib] form of
    [<local_sandbox_dir>/local_flytekit] (without doubled or trailing
    slashes), is a directory of the local disk, the client holds a new disk
    back-end and the back-end that the raw output prefix resolves to, and no
    remote store was touched. *)
Theorem init_postcondition {Remote : Type}
    (plugins : DataPersistencePlugins.Registry Remote) (o : nat)
    (sandbox : option string) (raw : string) (w0 w1 : World Remote)
    (self : FileAccessProvider.t Remote) :
  FileAccessProvider.__init__ plugins o sandbox raw w0 = (Ok self, w1) ->
  (exists es, stat (fst w1) (FileAccessProvider.local_sandbox_dir self) = inr (Dir es))
  /\ (exists dir, sandbox = Some dir
                  /\ FileAccessProvider.local_sandbox_dir self
                     = Pathlib.str (PosixPath.join dir ["local_flytekit"]))
  /\ FileAccessProvider.local_access self = DiskPersistence.new o
  /\ DataPersistencePlugins.find_plugin plugins raw
     = Ok (FileAccessProvider._default_remote self)
  /\ snd w1 = snd w0.
Proof.
  intros Hinit.
  destruct (init_outcome _ _ _ _ _ _ _ Hinit) as (dir & backend & -> & Hdir & Hfind & ->).
  unfold FileAccessProvider.__init__, bind in Hinit.
  apply String.eqb_neq in Hdir. rewrite Hdir, Hfind in Hinit.
  destruct (on_disk _ w0) as [[[]|e] w] eqn:Emk; [|discriminate].
  simpl in Hinit. injection Hinit as <-.
  apply on_disk_outcome in Emk as [Emk Hremote].
  unfold Lib.pathlib_mkdir_parents, bind, Lib.log, modify in Emk. cbn [fst snd] in Emk.
  apply mkdir_p_postcondition in Emk.
  split; [exact Emk|]. split; [exists dir; split; reflexivity|].
  split; [reflexivity|]. split; [exact Hfind|exact Hremote].
Qed.

Lemma init_postcondition_witness :
  exists es, stat (fst (snd (FileAccessProvider.__init__ example_registry 5
                              (Some "/tmp//sandbox/") "mem://bucket/raw" example_world)))
               "/tmp/sandbox/local_flytekit" = inr (Dir es).
Proof.
  destruct (init_postcondition example_registry 5 (Some "/tmp//sandbox/")
              "mem://bucket/raw" example_world
              (snd (FileAccessProvider.__init__ example_registry 5 (Some "/tmp//sandbox/")
                      "mem://bucket/raw" example_world))
              example_provider eq_refl) as [Hdir _].
  exact Hdir.
Defined.

(** X16. How the constructor of the client fails. Without a sandbox
    directory ([None] or the empty string) it raises before it touches
    anything. With one, the directory is created first: when the raw output
    prefix matches no registered protocol, the constructor raises the
    [TypeError] of [find_plugin] and the sandbox directory that it created
    stays on the disk. *)
Theorem init_failures {Remote : Type}
    (plugins : DataPersistencePlugins.Registry Remote) (o : nat)
    (raw : string) (w0 : World Remote) :
  FileAccessProvider.__init__ plugins o None raw w0
    = (Raise (Exc "Exception" "Can't use empty path"), w0)
  /\ FileAccessProvider.__init__ plugins o (Some "") raw w0
     = (Raise (Exc "Exception" "Can't use empty path"), w0)
  /\ forall dir e d1,
       dir <> "" ->
       DataPersistencePlugins.find_plugin plugins raw = Raise e ->
       Lib.pathlib_mkdir_parents
         (Pathlib.str (PosixPath.join dir ["local_flytekit"])) (fst w0)
         = (Ok tt, d1) ->
       FileAccessProvider.__init__ plugins o (Some dir) raw w0
         = (Raise (Exc "TypeError" (DataPersistencePlugins.not_found_message raw)),
            (d1, snd w0))
       /\ exists es,
            stat d1 (Pathlib.str (PosixPath.join dir ["local_flytekit"]))
            = inr (Dir es).
Proof.
  split; [reflexivity|]. split; [reflexivity|].
  intros dir e d1 Hdir Hfind Hmk. split.
  - unfold FileAccessProvider.__init__, bind, on_disk.
    apply String.eqb_neq in Hdir. rewrite Hdir, Hmk, Hfind. simpl.
    now rewrite (find_in_raises_not_found _ _ _ Hfind).
  - unfold Lib.pathlib_mkdir_parents, bind, Lib.log, modify in Hmk. cbn [fst snd] in Hmk.
    now apply mkdir_p_postcondition in Hmk.
Qed.

Lemma init_failures_witness :
  fst (FileAccessProvider.__init__ example_registry 5 (Some "/tmp/sandbox")
         "s3://bucket/raw" example_world)
  = Raise (Exc "TypeError" "No plugin found for matching protocol of path s3://bucket/raw")
  /\ exists es,
       stat (fst (snd (FileAccessProvider.__init__ example_registry 5 (Some "/tmp/sandbox")
                         "s3://bucket/raw" example_world)))
         "/tmp/sandbox/local_flytekit" = inr (Dir es).
Proof.
  destruct (init_failures example_registry 5 "s3://bucket/raw" example_world)
    as (_ & _ & H).
  destruct (H "/tmp/sandbox" (Exc "TypeError"
               "No plugin found for matching protocol of path s3://bucket/raw")
              (snd (Lib.pathlib_mkdir_parents "/tmp/sandbox/local_flytekit" example_disk)))
    as [Hraise Hdir]; [discriminate|reflexivity|reflexivity|].
  rewrite Hraise. split; [reflexivity|exact Hdir].
Defined.

(** X17. When the path that selects the back-end matches no registered
    protocol (the remote path for [exists], [download] and
    [download_directory], the destination for [upload] and
    [upload_directory]), the operations of the client raise the [TypeError]
    of [find_plugin] as it is and leave the world untouched; [get_data] alone
    wraps it in a [FlyteAssertion]. *)
Theorem client_operations_without_plugin {Remote : Type}
    (plugins : DataPersistencePlugins.Registry Remote)
    (self : FileAccessProvider.t Remote) (path other : string) (is_multipart : bool)
    (w : World Remote) (e : PyExc) :
  DataPersistencePlugins.find_plugin plugins path = Raise e ->
  e = Exc "TypeError" (DataPersistencePlugins.not_found_message path)
  /\ FileAccessProvider.exists_ plugins self path w = (Raise e, w)
  /\ FileAccessProvider.download plugins self path other w = (Raise e, w)
  /\ FileAccessProvider.download_directory plugins self path other w = (Raise e, w)
  /\ FileAccessProvider.upload plugins self other path w = (Raise e, w)
  /\ FileAccessProvider.upload_directory plugins self other path w = (Raise e, w)
  /\ FileAccessProvider.get_data plugins self path other is_multipart w
     = (Raise (ExcDuring "FlyteAssertion"
                 (FileAccessProvider.get_data_message path other is_multipart (exc_str e))
                 e), w).
Proof.
  intros Hfind. split; [exact (find_in_raises_not_found _ _ _ Hfind)|].
  unfold FileAccessProvider.get_data, try_except, PerformanceTimer,
    FileAccessProvider.exists_, FileAccessProvider.download,
    FileAccessProvider.download_directory, FileAccessProvider.upload,
    FileAccessProvider.upload_directory, bind.
  rewrite Hfind. simpl. repeat split. now destruct is_multipart.
Qed.

Lemma client_operations_without_plugin_witness :
  FileAccessProvider.upload example_registry example_provider "/d/a.txt" "s3://b/k"
    example_world
  = (Raise (Exc "TypeError" "No plugin found for matching protocol of path s3://b/k"),
     example_world).
Proof.
  destruct (client_operations_without_plugin example_registry example_provider
              "s3://b/k" "/d/a.txt" false example_world
              (Exc "TypeError" "No plugin found for matching protocol of path s3://b/k")
              eq_refl) as (_ & _ & _ & _ & Hup & _).
  exact Hup.
Defined.

Lemma find_plugin_local_after_import {Remote : Type} (o1 o2 : nat)
    (later : list (string * DataPersistence.t Remote)) (path : string) :
  FileAccessProvider.is_remote path = false ->
  DataPersistencePlugins.find_plugin (module_registry o1 o2 ++ later)%list path
  = Ok (DiskPersistence.new (if startswith path "file://" then o1 else o2)).
Proof.
  intros Hlocal.
  unfold DataPersistencePlugins.find_plugin, PyDict.items.
  rewrite find_in_app.
  change (@module_registry Remote o1 o2)
    with [("file://", @DiskPersistence.new Remote o1); ("/", DiskPersistence.new o2)].
  unfold FileAccessProvider.is_remote in Hlocal.
  unfold DataPersistencePlugins.find_in.
  destruct (startswith path "file://"); [reflexivity|].
  destruct (startswith path "/"); [reflexivity|discriminate].
Qed.

(** X18. Paths that [is_remote] calls local stay with the disk back-ends of
    the import whatever is registered afterwards under other protocols: with
    any bindings added behind the two of the import, such a path resolves to
    the disk back-end of ["file://"] or of ["/"], and the client's [exists]
    and [download] on it are those of the disk back-end on the local disk. *)
Theorem local_paths_stay_on_disk {Remote : Type} (o1 o2 : nat)
    (later : list (string * DataPersistence.t Remote))
    (self : FileAccessProvider.t Remote) (path local_path : string) (w : World Remote) :
  FileAccessProvider.is_remote path = false ->
  let plugins := (module_registry o1 o2 ++ later)%list in
  DataPersistencePlugins.find_plugin plugins path
  = Ok (DiskPersistence.new (if startswith path "file://" then o1 else o2))
  /\ FileAccessProvider.exists_ plugins self path w
     = on_disk (DiskPersistence.exists_ path) w
  /\ FileAccessProvider.download plugins self path local_path w
     = on_disk (DiskPersistence.download path local_path) w.
Proof.
  intros Hlocal plugins.
  pose proof (find_plugin_local_after_import o1 o2 later path Hlocal) as Hfind.
  fold plugins in Hfind. split; [exact Hfind|].
  unfold FileAccessProvider.exists_, FileAccessProvider.download, bind.
  rewrite Hfind. simpl. split; reflexivity.
Qed.

Lemma local_paths_stay_on_disk_witness :
  FileAccessProvider.exists_ example_registry example_provider "file:///d/a.txt"
    example_world
  = (Ok true, example_world).
Proof.
  destruct (local_paths_stay_on_disk 1 2 [("mem://", MemPersistence.new 3)]
              example_provider "file:///d/a.txt" "" example_world eq_refl)
    as (_ & Hexists & _).
  change (module_registry 1 2 ++ [("mem://", MemPersistence.new 3)])%list
    with example_registry in Hexists.
  rewrite Hexists. reflexivity.
Defined.

(** * Further properties of the random paths *)

(** X22. [get_random_local_directory] never creates a directory: it asks for
    the random path first, which raises the [AttributeError] of line 247, so
    it raises that error and leaves the local disk and the remote stores as
    they were; [get_random_remote_directory] raises the same error. *)
Theorem get_random_directory_raises {Remote : Type}
    (self : FileAccessProvider.t Remote) (entropy : N) (w : World Remote) :
  let e := Exc "AttributeError"
             "'builtin_function_or_method' object has no attribute 'getrandbits'" in
  FileAccessProvider.get_random_local_directory self entropy w = (Raise e, w)
  /\ FileAccessProvider.get_random_remote_directory self entropy = Raise e.
Proof.
  intros e.
  assert (Hbits : random_random_getrandbits 128 entropy = Raise e) by reflexivity.
  unfold FileAccessProvider.get_random_local_directory,
    FileAccessProvider.get_random_remote_directory,
    FileAccessProvider.get_random_local_path,
    FileAccessProvider.get_random_remote_path,
    FileAccessProvider.construct_random_path, bind.
  rewrite Hbits. split; reflexivity.
Qed.

(** X23. [get_data] of a single file from a path that [is_remote] calls
    local, with the registry of the import and any bindings added behind it:
    when it returns, the local path holds the content that the file at the
    remote path has, and the remote stores are as before. *)
Theorem get_data_copies_local_file {Remote : Type} (o1 o2 : nat)
    (later : list (string * DataPersistence.t Remote))
    (self : FileAccessProvider.t Remote) (remote_path local_path : string)
    (w w' : World Remote) :
  FileAccessProvider.is_remote remote_path = false ->
  FileAccessProvider.get_data (module_registry o1 o2 ++ later)%list self
    remote_path local_path false w = (Ok tt, w') ->
  exists data,
    stat (fst w) (DiskPersistence.strip_file_header remote_path) = inr (File data)
    /\ stat (fst w') (DiskPersistence.strip_file_header local_path) = inr (File data)
    /\ snd w' = snd w.
Proof.
  intros Hlocal.
  pose proof (find_plugin_local_after_import o1 o2 later remote_path Hlocal) as Hfind.
  unfold FileAccessProvider.get_data, try_except, PerformanceTimer,
    FileAccessProvider.download, bind.
  rewrite Hfind. cbn [FileAccessProvider.lift_result ret DataPersistence.download
    DiskPersistence.new].
  destruct (on_disk (DiskPersistence.download remote_path local_path) w)
    as [[[]|e] w1] eqn:Erun; [|discriminate].
  intros [= <-]. apply on_disk_outcome in Erun as [Erun Hremote].
  unfold DiskPersistence.download in Erun.
  apply shutil_copyfile_outcome in Erun as (data & Hsrc & Hdst & _).
  eauto.
Qed.

Lemma get_data_copies_local_file_witness :
  exists data,
    stat example_disk "/d/a.txt" = inr (File data)
    /\ stat (fst (snd (FileAccessProvider.get_data example_registry example_provider
                         "file:///d/a.txt" "/tmp/a.txt" false example_world)))
         "/tmp/a.txt" = inr (File data).
Proof.
  destruct (get_data_copies_local_file 1 2 [("mem://", MemPersistence.new 3)]
              example_provider "file:///d/a.txt" "/tmp/a.txt" example_world
              (snd (FileAccessProvider.get_data example_registry example_provider
                      "file:///d/a.txt" "/tmp/a.txt" false example_world))
              eq_refl eq_refl) as (data & Hsrc & Hdst & _).
  exists data. split; [exact Hsrc|exact Hdst].
Defined.

(** X24. [put_data] of a single file by a client whose default remote is a
    disk back-end: when it returns, the remote path holds the content that
    the local file had, also when the directories of the remote path did not
    exist before, whatever the remote path would resolve to in the registry. *)
Theorem put_data_to_disk_remote {Remote : Type} (o : nat)
    (self : FileAccessProvider.t Remote) (local_path remote_path data : string)
    (w w' : World Remote) :
  FileAccessProvider._default_remote self = DiskPersistence.new o ->
  stat (fst w) (DiskPersistence.strip_file_header local_path) = inr (File data) ->
  FileAccessProvider.put_data self local_path remote_path false w = (Ok tt, w') ->
  stat (fst w') (DiskPersistence.strip_file_header remote_path) = inr (File data)
  /\ snd w' = snd w.
Proof.
  intros Hremote Hsrc.
  unfold FileAccessProvider.put_data, try_except, PerformanceTimer.
  rewrite Hremote. cbn [DataPersistence.upload DiskPersistence.new].
  destruct (on_disk (DiskPersistence.upload local_path remote_path) w)
    as [[[]|e] w1] eqn:Erun; [|discriminate].
  intros [= <-]. apply on_disk_outcome in Erun as [Erun Hsame].
  destruct (upload_copies _ _ _ _ _ Hsrc Erun) as [Hdst _].
  auto.
Qed.

Lemma put_data_to_disk_remote_witness :
  stat (fst (snd (FileAccessProvider.put_data default_local_file_access_provider
                    "/d/a.txt" "/tmp/flyte/20210101_000000/raw/out/a.txt" false
                    (example_disk, tt))))
    "/tmp/flyte/20210101_000000/raw/out/a.txt" = inr (File "A").
Proof.
  destruct (put_data_to_disk_remote 2 default_local_file_access_provider
              "/d/a.txt" "/tmp/flyte/20210101_000000/raw/out/a.txt" "A"
              (example_disk, tt)
              (snd (FileAccessProvider.put_data default_local_file_access_provider
                      "/d/a.txt" "/tmp/flyte/20210101_000000/raw/out/a.txt" false
                      (example_disk, tt)))
              eq_refl eq_refl eq_refl) as [Hdst _].
  exact Hdst.
Defined.

(** * [unarchive_file] *)

(** X25. [unarchive_file] returns only when the unpacking returned and left
    [<to_dir>/_arch] as a directory with exactly one entry, and it then
    returns the path of that entry in it. When the unpacking left a directory
    with no entry or with several, it raises a [RuntimeError] that lists the
    names; when it left no directory there (an archive without members, or a
    file in its place), the [OSError] of [os.listdir] comes out instead. A
    failure of the unpacking comes out as it is. *)
Theorem unarchive_file_outcome (unpack_archive : string -> string -> M Disk unit)
    (local_path to_dir : string) (d : Disk) :
  let archive_dir := PosixPath.join to_dir ["_arch"] in
  Sqlite3Task.unarchive_file unpack_archive local_path to_dir d
  = match unpack_archive local_path archive_dir d with
    | (Raise e, d1) => (Raise e, d1)
    | (Ok _, d1) =>
        match stat d1 archive_dir with
        | inr (Dir [(name, _)]) => (Ok (PosixPath.join2 archive_dir name), d1)
        | inr (Dir es) =>
            (Raise (Exc "RuntimeError"
                      ("Uncompressed archive should contain only one file - found "
                       ++ PyRepr.repr_list (map fst es) ++ "!")), d1)
        | inr (File _) => (Raise (Lib.oserror ENOTDIR archive_dir), d1)
        | inl e => (Raise (Lib.oserror e archive_dir), d1)
        end
    end
  /\ forall path d',
       Sqlite3Task.unarchive_file unpack_archive local_path to_dir d = (Ok path, d') ->
       exists name n,
         unpack_archive local_path archive_dir d = (Ok tt, d')
         /\ stat d' archive_dir = inr (Dir [(name, n)])
         /\ path = PosixPath.join2 archive_dir name.
Proof.
  intros archive_dir.
  assert (Hrun : Sqlite3Task.unarchive_file unpack_archive local_path to_dir d
    = match unpack_archive local_path archive_dir d with
      | (Raise e, d1) => (Raise e, d1)
      | (Ok _, d1) =>
          match stat d1 archive_dir with
          | inr (Dir [(name, _)]) => (Ok (PosixPath.join2 archive_dir name), d1)
          | inr (Dir es) =>
              (Raise (Exc "RuntimeError"
                        ("Uncompressed archive should contain only one file - found "
                         ++ PyRepr.repr_list (map fst es) ++ "!")), d1)
          | inr (File _) => (Raise (Lib.oserror ENOTDIR archive_dir), d1)
          | inl e => (Raise (Lib.oserror e archive_dir), d1)
          end
      end).
  { unfold Sqlite3Task.unarchive_file, bind. fold archive_dir.
    destruct (unpack_archive local_path archive_dir d) as [[[]|e] d1]; [|reflexivity].
    unfold Lib.os_listdir.
    destruct (stat d1 archive_dir) as [e|[data|es]]; try reflexivity.
    destruct es as [|[name n] [|[name2 n2] es]]; reflexivity. }
  split; [exact Hrun|].
  intros path d'. rewrite Hrun.
  destruct (unpack_archive local_path archive_dir d) as [[[]|e] d1]; [|discriminate].
  destruct (stat d1 archive_dir) as [e|[data|es]] eqn:Estat; try discriminate.
  destruct es as [|[name n] [|[name2 n2] es]]; try discriminate.
  intros [= <- <-]. exists name, n. auto.
Qed.

Lemma unarchive_file_outcome_witness :
  Sqlite3Task.unarchive_file
    (fun src dst => Lib.mkdir_p dst true ;;; Lib.copy_file src (PosixPath.join2 dst "db"))
    "/d/a.txt" "/tmp" example_disk
  = (Ok "/tmp/_arch/db",
     mkDisk (Dir [("d", Dir [("a.txt", File "A"); ("sub", Dir [("b.txt", File "B")])]);
                  ("tmp", Dir [("_arch", Dir [("db", File "A")])])]) [] [])
  /\ fst (Sqlite3Task.unarchive_file (fun src dst => ret tt) "/d/a.txt" "/tmp" example_disk)
     = Raise (Exc "FileNotFoundError"
                "[Errno 2] No such file or directory: '/tmp/_arch'")
  /\ fst (Sqlite3Task.unarchive_file (fun src dst => Lib.copy_tree_rec 5 src dst)
            "/d" "/tmp" example_disk)
     = Raise (Exc "RuntimeError"
                "Uncompressed archive should contain only one file - found ['a.txt', 'sub']!")
  /\ exists name n,
       stat (snd (Sqlite3Task.unarchive_file
                    (fun src dst => Lib.mkdir_p dst true ;;;
                                    Lib.copy_file src (PosixPath.join2 dst "db"))
                    "/d/a.txt" "/tmp" example_disk)) "/tmp/_arch"
       = inr (Dir [(name, n)]).
Proof.
  destruct (unarchive_file_outcome
              (fun src dst => Lib.mkdir_p dst true ;;;
                              Lib.copy_file src (PosixPath.join2 dst "db"))%py
              "/d/a.txt" "/tmp" example_disk) as [Hone Honly].
  destruct (unarchive_file_outcome (fun src dst => ret tt)
              "/d/a.txt" "/tmp" example_disk) as [Hnone _].
  destruct (unarchive_file_outcome (fun src dst => Lib.copy_tree_rec 5 src dst)
              "/d" "/tmp" example_disk) as [Hmany _].
  split; [rewrite Hone; reflexivity|].
  split; [rewrite Hnone; reflexivity|].
  split; [rewrite Hmany; reflexivity|].
  destruct (Honly "/tmp/_arch/db"
              (mkDisk (Dir [("d", Dir [("a.txt", File "A");
                                       ("sub", Dir [("b.txt", File "B")])]);
                            ("tmp", Dir [("_arch", Dir [("db", File "A")])])]) [] []))
    as (name & n & Hunpack & Hstat & _); [rewrite Hone; reflexivity|].
  exists name, n. rewrite Hone. exact Hstat.
Defined.
